(** * import_export/mixins.py: export and import view mixins

    A shallow embedding of the mixins of [import_export/mixins.py] and the
    properties their specification states about them.

    The module is glue between four collaborators (format classes, resource
    classes, the hosting web framework and the signal dispatcher).  The
    collaborators are modelled by the interface the mixins consume, as records
    of their attributes and methods; the mixins' own methods are translated
    statement by statement. Python exceptions are values of [Exception], and a
    method that calls a collaborator or may raise runs in the monad [M], which
    threads a [World] (the clock and the trace of calls made so far) and keeps
    the world reached when an exception is raised. *)

From Stdlib Require Import ZArith Lia Ascii String List DecimalString DecimalNat DecimalFacts.
From stdpp Require Import base option list gmap strings.

Local Open Scope string_scope.

(** ** Python values and builtins used by the mixins *)

Inductive Exception :=
| AttributeError
| IndexError
| KeyError
| TypeError
| ValueError.

#[global] Instance Exception_eq_dec : EqDecision Exception.
Proof. solve_decision. Defined.

Inductive result (A : Type) :=
| Ok (a : A)
| Raise (e : Exception).

Arguments Ok {A} a.
Arguments Raise {A} e.

Module Py.

(** [str(i)] for a non-negative integer. *)
Definition str (i : nat) : string := NilZero.string_of_uint (Nat.to_uint i).

(** White space as [int()] skips it around an ASCII string: the space and the
    characters from tab to carriage return. *)
Definition isspace (a : ascii) : bool :=
  let n := nat_of_ascii a in
  (((9 <=? n) && (n <=? 13)) || (n =? 32))%nat.

Fixpoint lstrip (s : string) : string :=
  match s with
  | EmptyString => EmptyString
  | String a s' => if isspace a then lstrip s' else s
  end.

Fixpoint rstrip (s : string) : string :=
  match s with
  | EmptyString => EmptyString
  | String a s' =>
      match rstrip s' with
      | EmptyString => if isspace a then EmptyString else String a EmptyString
      | r => String a r
      end
  end.

Definition digit_value (a : ascii) : option nat :=
  let n := nat_of_ascii a in
  if ((48 <=? n) && (n <=? 57))%nat then Some (n - 48) else None.

(** The digits of an integer literal: decimal digits, with single
    underscores allowed between two digits. [after_digit] tells whether the
    character before was a digit. *)
Fixpoint digits (acc : nat) (after_digit : bool) (s : string) : option nat :=
  match s with
  | EmptyString => if after_digit then Some acc else None
  | String a s' =>
      match digit_value a with
      | Some d => digits (10 * acc + d) true s'
      | None =>
          if Ascii.eqb a "_" && after_digit then digits acc false s' else None
      end
  end.

(** [int(s)] for a string [s]: surrounding white space is dropped, then come
    an optional sign and the digits; anything else raises [ValueError]. This
    is Python's [int] on ASCII strings. Two things are left out: on a string
    with characters outside ASCII Python also accepts the other Unicode
    spaces and decimal digits (here such a string raises [ValueError]), and
    the interpreter's optional limit on the number of digits (4300 unless
    configured otherwise) is not applied. *)
Definition int (s : string) : result Z :=
  match lstrip (rstrip s) with
  | EmptyString => Raise ValueError
  | String a s' =>
      if Ascii.eqb a "-" then
        match digits 0 false s' with
        | Some n => Ok (- Z.of_nat n)%Z
        | None => Raise ValueError
        end
      else if Ascii.eqb a "+" then
        match digits 0 false s' with
        | Some n => Ok (Z.of_nat n)
        | None => Raise ValueError
        end
      else
        match digits 0 false (String a s') with
        | Some n => Ok (Z.of_nat n)
        | None => Raise ValueError
        end
  end.

(** [l[i]]: a negative index counts from the end, an index out of range
    raises [IndexError]. *)
Definition getitem {A : Type} (l : list A) (i : Z) : result A :=
  let n := Z.of_nat (length l) in
  let j := if (i <? 0)%Z then (i + n)%Z else i in
  if ((j <? 0) || (n <=? j))%Z then Raise IndexError
  else match l !! Z.to_nat j with
       | Some x => Ok x
       | None => Raise IndexError
       end.

(** [l.index(x)]: the first position of [x], [ValueError] when absent. *)
Fixpoint index (l : list string) (x : string) : result nat :=
  match l with
  | [] => Raise ValueError
  | y :: l' =>
      if String.eqb y x then Ok 0
      else match index l' x with
           | Ok i => Ok (S i)
           | Raise e => Raise e
           end
  end.

(** [d[k]] on a dict: [KeyError] when the key is absent. *)
Definition dict_getitem (d : gmap string string) (k : string) : result string :=
  match d !! k with
  | Some x => Ok x
  | None => Raise KeyError
  end.

(** [d.get(k, default)]. *)
Definition dict_get (d : gmap string string) (k default : string) : string :=
  match d !! k with
  | Some x => x
  | None => default
  end.

(** A list comprehension [[g(x) for x in l if p(x)]] as Python runs it: the
    result starts empty and each selected element is appended in turn. *)
Definition comprehension {A B : Type} (g : A -> B) (p : A -> bool) (l : list A) : list B :=
  fold_left (fun acc x => if p x then (acc ++ [g x])%list else acc) l [].

End Py.

(** ** Dates: [now().strftime('%Y-%m-%d')] *)

Record datetime := { year : nat; month : nat; day : nat }.

Definition digit (n : nat) : ascii := ascii_of_nat (48 + n mod 10).

(** [%Y] and [%m], [%d]: zero-padded decimal fields of four and two digits. *)
Definition digits2 (n : nat) : string :=
  String (digit (n / 10)) (String (digit n) "").

Definition digits4 (n : nat) : string :=
  String (digit (n / 1000)) (String (digit (n / 100)) (digits2 n)).

Definition strftime_Ymd (d : datetime) : string :=
  digits4 (year d) ++ "-" ++ digits2 (month d) ++ "-" ++ digits2 (day d).

(** ** The collaborators' interfaces *)

Definition bytes := string.
Definition Row := list string.
Definition Queryset := list Row.
Definition Dataset := list Row.
Definition Kwargs := gmap string string.

(** A format instance: what [f()] answers to. *)
Record Format := {
  get_title : string;
  get_extension : string;
  get_content_type : string;
  can_import : bool;
  can_export : bool;
  export_data : Dataset -> bytes;
}.

(** A format class, an element of [formats]; [construct f] is [f()]. Format
    instances are stateless: every call of [f()] gives the same answers. *)
Record FormatClass := { construct : Format }.

(** A Django model class. *)
Record ModelClass := { __name__ : string }.

(** The inner [Meta] class of a resource class; [Meta_model] is [Meta.model]
    ([None] when it is left unset). *)
Record ResourceMeta := { Meta_model : option ModelClass }.

Record Resource := { export_queryset : Queryset -> Dataset }.

(** A resource class: its [Meta] attribute (absent when the class declares
    none) and its constructor, called with keyword arguments. *)
Record ResourceClass := {
  Meta : option ResourceMeta;
  init : Kwargs -> Resource;
}.

Record Filterset := { qs : Queryset }.
Definition FiltersetClass := Queryset -> Filterset.

(** The filtering capability a view may have (django-filter's mixin provides
    both methods); [form_valid] probes for it with [hasattr]. *)
Record FilterCapability := {
  get_filterset_class : FiltersetClass;
  get_filterset : FiltersetClass -> Filterset;
}.

Record Request := { GET : gmap string string }.

Record Form := { cleaned_data : gmap string string }.

Inductive Content :=
| Bytes (b : bytes)
| Json (data : gmap string string).

Record Response := {
  status_code : Z;
  content : Content;
  headers : gmap string string;
}.

(** A view built from the mixins: the class attributes the mixins declare
    ([formats], [resource_class], [model]) and what the hosting framework
    gives the view. [filterset = None] is a view without [get_filterset]. *)
Record View := {
  formats : list FormatClass;
  resource_class : option ResourceClass;
  model : option ModelClass;
  request : Request;
  get_queryset : Queryset;
  filter_queryset : Queryset -> Queryset;
  filterset : option FilterCapability;
}.

(** ** The world: clock and trace of calls to the collaborators *)

Inductive Event :=
| GetQueryset
| FilterQueryset (q : Queryset)
| GetFilterset
| ResourceInit (rc : ResourceClass) (kwargs : Kwargs)
| ResourceExport (q : Queryset)
| FormatExportData (f : Format) (data : Dataset)
| PostExport (sender : option ModelClass) (model : option ModelClass).

Record World := { clock : datetime; events : list Event }.

Definition M (A : Type) : Type := World -> World * result A.

Definition ret {A : Type} (a : A) : M A := fun w => (w, Ok a).

Definition raise {A : Type} (e : Exception) : M A := fun w => (w, Raise e).

Definition bind {A B : Type} (c : M A) (k : A -> M B) : M B :=
  fun w =>
    match c w with
    | (w', Ok a) => k a w'
    | (w', Raise e) => (w', Raise e)
    end.

Definition lift {A : Type} (r : result A) : M A := fun w => (w, r).

Definition emit (e : Event) : M unit :=
  fun w => ({| clock := clock w; events := (events w ++ [e])%list |}, Ok tt).

(** [django.utils.timezone.now()]: reads the clock. *)
Definition now : M datetime := fun w => (w, Ok (clock w)).

(** [try: body except exc: handler]. *)
Definition try_except {A : Type} (body : M A) (exc : Exception) (handler : M A) : M A :=
  fun w =>
    match body w with
    | (w', Raise e) => if decide (e = exc) then handler w' else (w', Raise e)
    | r => r
    end.

(** Reading an attribute that may be missing (or reading through [None]). *)
Definition getattr {A : Type} (o : option A) : M A :=
  match o with
  | Some a => ret a
  | None => raise AttributeError
  end.

Declare Scope py_scope.
Delimit Scope py_scope with py.

Notation "x <- c ;; k" := (bind c (fun x => k))
  (at level 100, c at next level, right associativity) : py_scope.

Notation "c ;;; k" := (bind c (fun _ => k))
  (at level 100, right associativity) : py_scope.

Local Open Scope py_scope.

(** ** The framework's response constructors *)

Definition dquote : string := String "034" "".

(** The keyword under which [HttpResponse] is given the content type. *)
Inductive ResponseKwarg :=
| content_type_kw
| mimetype_kw.

(** [HttpResponse(content, content_type=...)] answers with status 200 and
    the [Content-Type] header; the [mimetype] keyword of old releases is
    rejected with [TypeError], as Django does since 1.7 (the releases this
    module runs on: it imports [django.utils.timezone] and the REST
    framework's [action]). *)
Definition HttpResponse (body : bytes) (kw : ResponseKwarg) (value : string) : M Response :=
  match kw with
  | content_type_kw =>
      ret {| status_code := 200;
             content := Bytes body;
             headers := {[ "Content-Type" := value ]} |}
  | mimetype_kw => raise TypeError
  end.

(** [JsonResponse(data=..., status=...)]. *)
Definition JsonResponse (data : gmap string string) (status : Z) : Response :=
  {| status_code := status;
     content := Json data;
     headers := {[ "Content-Type" := "application/json" ]} |}.

(** [response[name] = value]. *)
Definition setitem (r : Response) (name value : string) : Response :=
  {| status_code := status_code r;
     content := content r;
     headers := <[ name := value ]> (headers r) |}.

(** ** The mixins *)

Section Mixins.

(** [resources.modelresource_factory], defined in the resource layer. *)
Variable modelresource_factory : option ModelClass -> ResourceClass.

(** *** BaseImportExportMixin *)

Definition get_resource_class (self : View) : ResourceClass :=
  match resource_class self with
  | None => modelresource_factory (model self)
  | Some rc => rc
  end.

Definition get_resource_kwargs (self : View) (request : Request) : Kwargs := ∅.

(** *** BaseImportMixin *)

Definition get_import_resource_class (self : View) : ResourceClass :=
  get_resource_class self.

Definition get_import_formats (self : View) : list FormatClass :=
  Py.comprehension (fun f => f) (fun f => can_import (construct f)) (formats self).

Definition get_import_resource_kwargs (self : View) (request : Request) : Kwargs :=
  get_resource_kwargs self request.

(** *** BaseExportMixin *)

Definition get_export_formats (self : View) : list FormatClass :=
  Py.comprehension (fun f => f) (fun f => can_export (construct f)) (formats self).

Definition get_export_resource_class (self : View) : ResourceClass :=
  get_resource_class self.

Definition get_export_resource_kwargs (self : View) (request : Request) : Kwargs :=
  get_resource_kwargs self request.

Definition get_data_for_export (self : View) (request : Request) (queryset : Queryset)
  : M Dataset :=
  let resource_class := get_export_resource_class self in
  let kwargs := get_export_resource_kwargs self request in
  emit (ResourceInit resource_class kwargs) ;;;
  let resource := init resource_class kwargs in
  emit (ResourceExport queryset) ;;;
  ret (export_queryset resource queryset).

Definition get_export_filename (self : View) (file_format : Format) : M string :=
  t <- now ;;
  let date_str := strftime_Ymd t in
  rc <- getattr (resource_class self) ;;
  meta <- getattr (Meta rc) ;;
  m <- getattr (Meta_model meta) ;;
  let filename := __name__ m ++ "-" ++ date_str ++ "." ++ get_extension file_format in
  ret filename.

(** *** ExportViewMixin *)

Definition get_export_data (self : View) (file_format : Format) (queryset : Queryset)
  : M bytes :=
  data <- get_data_for_export self (request self) queryset ;;
  emit (FormatExportData file_format data) ;;;
  let export_data := export_data file_format data in
  ret export_data.

(** *** ExportViewFormMixin *)

Definition form_valid (self : View) (form : Form) : M Response :=
  let formats := get_export_formats self in
  choice <- lift (Py.dict_getitem (cleaned_data form) "file_format") ;;
  i <- lift (Py.int choice) ;;
  cls <- lift (Py.getitem formats i) ;;
  let file_format := construct cls in
  queryset <- match filterset self with
              | Some cap =>
                  emit GetFilterset ;;;
                  ret (qs (get_filterset cap (get_filterset_class cap)))
              | None =>
                  emit GetQueryset ;;;
                  ret (get_queryset self)
              end ;;
  export_data <- get_export_data self file_format queryset ;;
  let content_type := get_content_type file_format in
  response <- try_except
                (HttpResponse export_data content_type_kw content_type)
                TypeError
                (HttpResponse export_data mimetype_kw content_type) ;;
  filename <- get_export_filename self file_format ;;
  let response :=
    setitem response "Content-Disposition"
      ("attachment; filename=" ++ dquote ++ filename ++ dquote) in
  emit (PostExport None (model self)) ;;;
  ret response.

(** *** ExportModelDRFMixin *)

Definition get_allowed_export_formats (self : View) : list string :=
  Py.comprehension (fun f => get_title (construct f))
    (fun f => can_export (construct f)) (formats self).

Definition export (self : View) (request : Request) : M Response :=
  let formats := get_export_formats self in
  match Py.index (get_allowed_export_formats self) (Py.dict_get (GET request) "format" "csv") with
  | Raise e =>
      if decide (e = ValueError) then
        ret (JsonResponse {[ "message" := "format is not supported" ]} 400)
      else raise e
  | Ok index =>
      cls <- lift (Py.getitem formats (Z.of_nat index)) ;;
      let file_format := construct cls in
      let content_type := get_content_type file_format in
      emit GetQueryset ;;;
      emit (FilterQueryset (get_queryset self)) ;;;
      let queryset := filter_queryset self (get_queryset self) in
      export_data <- get_export_data self file_format queryset ;;
      response <- try_except
                    (HttpResponse export_data content_type_kw content_type)
                    TypeError
                    (HttpResponse export_data mimetype_kw content_type) ;;
      filename <- get_export_filename self file_format ;;
      let response :=
        setitem response "Content-Disposition"
          ("attachment; filename=" ++ dquote ++ filename ++ dquote) in
      ret response
  end.

End Mixins.

(** *** ExportViewMixin: what the view hands to its form and template *)

(** A value of the keyword arguments the view builds its form from: the list
    of format classes the form offers, or a value the framework put there
    (the initial data, the prefix, the submitted data). *)
Inductive FormKwarg :=
| FormatsKwarg (offered : list FormatClass)
| FrameworkKwarg (value : string).

Definition FormKwargs := gmap string FormKwarg.

(** [get_form_kwargs]; [super_get_form_kwargs] is what the framework's
    [FormMixin.get_form_kwargs()] answers. *)
Definition get_form_kwargs (self : View) (super_get_form_kwargs : FormKwargs) : FormKwargs :=
  let kwargs := super_get_form_kwargs in
  let kwargs := <[ "formats" := FormatsKwarg (get_export_formats self) ]> kwargs in
  kwargs.

(** [get_context_data]; [super_get_context_data] is the framework's context. *)
Definition get_context_data (self : View) (super_get_context_data : gmap string string)
  : gmap string string :=
  let context := super_get_context_data in
  context.

(** ** Vocabulary of the statements *)

(** The world after the calls [new] were made from [w]. *)
Definition extend (w : World) (new : list Event) : World :=
  {| clock := clock w; events := (events w ++ new)%list |}.

(** Strings without white space, and strings of ASCII characters. *)
Fixpoint no_space (s : string) : bool :=
  match s with
  | EmptyString => true
  | String a s' => negb (Py.isspace a) && no_space s'
  end.

Fixpoint is_ascii (s : string) : bool :=
  match s with
  | EmptyString => true
  | String a s' => (nat_of_ascii a <? 128)%nat && is_ascii s'
  end.

(** The decimal numeral [rest] with the digit [k] put in front. *)
Definition dig (k : nat) (rest : Decimal.uint) : Decimal.uint :=
  match k with
  | 0 => Decimal.D0 rest
  | 1 => Decimal.D1 rest
  | 2 => Decimal.D2 rest
  | 3 => Decimal.D3 rest
  | 4 => Decimal.D4 rest
  | 5 => Decimal.D5 rest
  | 6 => Decimal.D6 rest
  | 7 => Decimal.D7 rest
  | 8 => Decimal.D8 rest
  | _ => Decimal.D9 rest
  end.

(** The capability tests of the two comprehensions. *)
Definition exportable (f : FormatClass) : bool := can_export (construct f).
Definition importable (f : FormatClass) : bool := can_import (construct f).

Definition is_post_export (e : Event) : bool :=
  match e with
  | PostExport _ _ => true
  | _ => false
  end.

(** The record type a view's configured [resource_class] declares, when the
    whole chain [resource_class.Meta.model] is there. *)
Definition declared_model (self : View) : option ModelClass :=
  match resource_class self with
  | Some rc =>
      match Meta rc with
      | Some meta => Meta_model meta
      | None => None
      end
  | None => None
  end.

Definition export_filename (T : ModelClass) (d : datetime) (ff : Format) : string :=
  __name__ T ++ "-" ++ strftime_Ymd d ++ "." ++ get_extension ff.

(** A download: status 200, the content type of the format and the
    attachment header. *)
Definition download (ff : Format) (body : bytes) (filename : string) : Response :=
  {| status_code := 200;
     content := Bytes body;
     headers := <[ "Content-Disposition" := "attachment; filename=" ++ dquote ++ filename ++ dquote ]>
                  {[ "Content-Type" := get_content_type ff ]} |}.

(** The queryset the form-driven flow exports, and the call that fetches it. *)
Definition form_queryset (self : View) : Queryset :=
  match filterset self with
  | Some cap => qs (get_filterset cap (get_filterset_class cap))
  | None => get_queryset self
  end.

Definition form_query_event (self : View) : Event :=
  match filterset self with
  | Some _ => GetFilterset
  | None => GetQueryset
  end.

Section Outcomes.

Variable mf : option ModelClass -> ResourceClass.

(** What exporting [q] in format [ff] yields, and the calls it makes. *)
Definition exported_dataset (self : View) (q : Queryset) : Dataset :=
  export_queryset (init (get_export_resource_class mf self) ∅) q.

Definition exported_bytes (self : View) (ff : Format) (q : Queryset) : bytes :=
  export_data ff (exported_dataset self q).

Definition export_calls (self : View) (ff : Format) (q : Queryset) : list Event :=
  [ ResourceInit (get_export_resource_class mf self) ∅;
    ResourceExport q;
    FormatExportData ff (exported_dataset self q) ].

(** The run of [form_valid] from the point where the format class [cls] has
    been selected. *)
Definition form_valid_outcome (self : View) (cls : FormatClass) (w : World)
  : World * result Response :=
  let ff := construct cls in
  let q := form_queryset self in
  let calls := form_query_event self :: export_calls self ff q in
  match declared_model self with
  | Some T =>
      (extend w (calls ++ [PostExport None (model self)])%list,
       Ok (download ff (exported_bytes self ff q) (export_filename T (clock w) ff)))
  | None => (extend w calls, Raise AttributeError)
  end.

(** The run of [export] from the point where the format class [cls] has
    been selected. *)
Definition export_outcome (self : View) (cls : FormatClass) (w : World)
  : World * result Response :=
  let ff := construct cls in
  let q := filter_queryset self (get_queryset self) in
  let calls := GetQueryset :: FilterQueryset (get_queryset self) :: export_calls self ff q in
  match declared_model self with
  | Some T =>
      (extend w calls,
       Ok (download ff (exported_bytes self ff q) (export_filename T (clock w) ff)))
  | None => (extend w calls, Raise AttributeError)
  end.

End Outcomes.

(** ** Concrete collaborators, used to run the mixins *)

Module Demo.

Definition newline : string := String "010" "".

Definition csv_format : Format :=
  {| get_title := "csv";
     get_extension := "csv";
     get_content_type := "text/csv";
     can_import := true;
     can_export := true;
     export_data := fun d => String.concat newline (map (String.concat ",") d) |}.

Definition xlsx_format : Format :=
  {| get_title := "xlsx";
     get_extension := "xlsx";
     get_content_type := "application/vnd.openxmlformats-officedocument.spreadsheetml.sheet";
     can_import := true;
     can_export := true;
     export_data := fun d => String.concat ";" (map (String.concat "|") d) |}.

(** A format that can be read but not written. *)
Definition legacy_format : Format :=
  {| get_title := "legacy";
     get_extension := "dat";
     get_content_type := "application/octet-stream";
     can_import := true;
     can_export := false;
     export_data := fun _ => "" |}.

Definition CSV : FormatClass := {| construct := csv_format |}.
Definition XLSX : FormatClass := {| construct := xlsx_format |}.
Definition Legacy : FormatClass := {| construct := legacy_format |}.

Definition Book : ModelClass := {| __name__ := "Book" |}.
Definition Author : ModelClass := {| __name__ := "Author" |}.

Definition plain_resource : Resource := {| export_queryset := fun q => q |}.

Definition BookResource : ResourceClass :=
  {| Meta := Some {| Meta_model := Some Book |};
     init := fun _ => plain_resource |}.

Definition factory (m : option ModelClass) : ResourceClass :=
  {| Meta := Some {| Meta_model := m |};
     init := fun _ => plain_resource |}.

Definition books : Queryset := [["1"; "Emma"]; ["2"; "Ulysses"]; ["3"; "Dracula"]].

Definition get_request : Request := {| GET := ∅ |}.

(** A view with an explicit resource class, whose [model] names another
    record type than the resource declares. *)
Definition book_view : View :=
  {| formats := [CSV; Legacy; XLSX];
     resource_class := Some BookResource;
     model := Some Author;
     request := get_request;
     get_queryset := books;
     filter_queryset := fun q => take 2 q;
     filterset := None |}.

(** The same view with [resource_class] left at its default. *)
Definition default_view : View :=
  {| formats := [CSV; Legacy; XLSX];
     resource_class := None;
     model := Some Book;
     request := get_request;
     get_queryset := books;
     filter_queryset := fun q => take 2 q;
     filterset := None |}.

(** A view whose resource class declares no record type. *)
Definition PlainResource : ResourceClass :=
  {| Meta := Some {| Meta_model := None |};
     init := fun _ => plain_resource |}.

Definition modelless_view : View :=
  {| formats := [CSV; Legacy; XLSX];
     resource_class := Some PlainResource;
     model := Some Book;
     request := get_request;
     get_queryset := books;
     filter_queryset := fun q => take 2 q;
     filterset := None |}.

Definition last_book : FilterCapability :=
  {| get_filterset_class := fun q => {| qs := drop 2 q |};
     get_filterset := fun cls => cls books |}.

(** A view with a filter set. *)
Definition filtered_view : View :=
  {| formats := [CSV; Legacy; XLSX];
     resource_class := Some BookResource;
     model := Some Book;
     request := get_request;
     get_queryset := books;
     filter_queryset := fun q => take 2 q;
     filterset := Some last_book |}.

Definition submitted (choice : string) : Form :=
  {| cleaned_data := {[ "file_format" := choice ]} |}.

Definition asking (title : string) : Request :=
  {| GET := {[ "format" := title ]} |}.

Definition today : World :=
  {| clock := {| year := 2024; month := 5; day := 17 |}; events := [] |}.

(** A view whose framework filter lets every record through. *)
Definition unfiltered_view : View :=
  {| formats := [CSV; Legacy; XLSX];
     resource_class := Some BookResource;
     model := Some Book;
     request := get_request;
     get_queryset := books;
     filter_queryset := fun q => q;
     filterset := None |}.

(** A view none of whose formats can export. *)
Definition import_only_view : View :=
  {| formats := [Legacy];
     resource_class := Some BookResource;
     model := Some Book;
     request := get_request;
     get_queryset := books;
     filter_queryset := fun q => q;
     filterset := None |}.

(** Two export formats under one title. *)
Definition csv_semicolon_format : Format :=
  {| get_title := "csv";
     get_extension := "txt";
     get_content_type := "text/plain";
     can_import := false;
     can_export := true;
     export_data := fun d => String.concat newline (map (String.concat ";") d) |}.

Definition CSVSemicolon : FormatClass := {| construct := csv_semicolon_format |}.

Definition two_csv_view : View :=
  {| formats := [Legacy; CSV; CSVSemicolon];
     resource_class := Some BookResource;
     model := Some Book;
     request := get_request;
     get_queryset := books;
     filter_queryset := fun q => q;
     filterset := None |}.

Definition framework_kwargs : FormKwargs :=
  {[ "prefix" := FrameworkKwarg "export"; "formats" := FrameworkKwarg "stale" ]}.

End Demo.

(** ** Running the mixins on the concrete collaborators *)

Example get_export_formats_demo :
  get_export_formats Demo.book_view = [Demo.CSV; Demo.XLSX].
Proof. reflexivity. Qed.

Example get_allowed_export_formats_demo :
  get_allowed_export_formats Demo.book_view = ["csv"; "xlsx"].
Proof. reflexivity. Qed.

Example strftime_demo : strftime_Ymd (clock Demo.today) = "2024-05-17".
Proof. reflexivity. Qed.

Example int_demo : Py.int "12" = Ok 12%Z /\ Py.int "-1" = Ok (-1)%Z /\ Py.int "x" = Raise ValueError.
Proof. repeat split; reflexivity. Qed.

Example getitem_demo :
  Py.getitem [10; 20; 30] 1 = Ok 20 /\ Py.getitem [10; 20; 30] (-1) = Ok 30
  /\ Py.getitem [10; 20; 30] 3 = Raise IndexError
  /\ Py.getitem [10; 20; 30] (-4) = Raise IndexError.
Proof. repeat split; reflexivity. Qed.

(** The form-driven flow: index 0 of [[csv; xlsx]] answers with the csv
    encoding and a [.csv] filename, and sends [post_export] once. *)
Example form_valid_demo :
  form_valid Demo.factory Demo.book_view (Demo.submitted "0") Demo.today
  = (extend Demo.today
       [ GetQueryset;
         ResourceInit Demo.BookResource ∅;
         ResourceExport Demo.books;
         FormatExportData Demo.csv_format Demo.books;
         PostExport None (Some Demo.Author) ],
     Ok (download Demo.csv_format
           ("1,Emma" ++ Demo.newline ++ "2,Ulysses" ++ Demo.newline ++ "3,Dracula")
           "Book-2024-05-17.csv")).
Proof. vm_compute. reflexivity. Qed.

(** An index past the end faults; a negative one counts from the end. *)
Example form_valid_index_demo :
  snd (form_valid Demo.factory Demo.book_view (Demo.submitted "2") Demo.today)
  = Raise IndexError
  /\ snd (form_valid Demo.factory Demo.book_view (Demo.submitted "-1") Demo.today)
     = Ok (download Demo.xlsx_format "1|Emma;2|Ulysses;3|Dracula" "Book-2024-05-17.xlsx").
Proof. split; vm_compute; reflexivity. Qed.

(** The API action: a known title, the default title, an unknown title. *)
Example export_demo :
  snd (export Demo.factory Demo.book_view (Demo.asking "xlsx") Demo.today)
  = Ok (download Demo.xlsx_format "1|Emma;2|Ulysses" "Book-2024-05-17.xlsx")
  /\ snd (export Demo.factory Demo.book_view Demo.get_request Demo.today)
     = Ok (download Demo.csv_format ("1,Emma" ++ Demo.newline ++ "2,Ulysses")
             "Book-2024-05-17.csv")
  /\ export Demo.factory Demo.book_view (Demo.asking "legacy") Demo.today
     = (Demo.today, Ok (JsonResponse {[ "message" := "format is not supported" ]} 400)).
Proof. repeat split; vm_compute; reflexivity. Qed.

Example get_export_filename_demo :
  get_export_filename Demo.book_view Demo.xlsx_format Demo.today
  = (Demo.today, Ok "Book-2024-05-17.xlsx").
Proof. reflexivity. Qed.

(** ** Facts about the builtins *)

Section Builtins.

Context {A B : Type}.
Implicit Types (g : A -> B) (p : A -> bool) (l : list A).

Lemma comprehension_acc g p l (acc : list B) :
  fold_left (fun acc x => if p x then (acc ++ [g x])%list else acc) l acc
  = (acc ++ map g (List.filter p l))%list.
Proof.
  revert acc. induction l as [|x l IH]; intros acc; simpl.
  - by rewrite app_nil_r.
  - rewrite IH. destruct (p x); simpl; [|done].
    by rewrite <- app_assoc.
Qed.

Lemma comprehension_spec g p l :
  Py.comprehension g p l = map g (List.filter p l).
Proof. unfold Py.comprehension. by rewrite comprehension_acc. Qed.

Lemma filter_sublist p l : sublist (List.filter p l) l.
Proof.
  induction l as [|x l IH]; simpl; [constructor|].
  destruct (p x); by constructor.
Qed.

Lemma getitem_lookup l (i : nat) (x : A) :
  l !! i = Some x -> Py.getitem l (Z.of_nat i) = Ok x.
Proof.
  intros Hx. pose proof (lookup_lt_Some _ _ _ Hx) as Hlt.
  assert ((Z.of_nat i <? 0)%Z = false) as Hneg by (apply Z.ltb_ge; lia).
  assert ((Z.of_nat (length l) <=? Z.of_nat i)%Z = false) as Hin by (apply Z.leb_gt; lia).
  unfold Py.getitem. cbv zeta. rewrite !Hneg, Hin. simpl.
  by rewrite Nat2Z.id, Hx.
Qed.

End Builtins.

Lemma index_Ok (l : list string) (x : string) (i : nat) :
  Py.index l x = Ok i -> l !! i = Some x /\ forall j, j < i -> l !! j <> Some x.
Proof.
  revert i. induction l as [|y l IH]; intros i; simpl; [done|].
  destruct (String.eqb_spec y x) as [->|Hne].
  - intros [= <-]. split; [done|]. intros j Hj. lia.
  - destruct (Py.index l x) as [k|e]; [|done].
    intros [= <-]. destruct (IH k eq_refl) as [Hk Hfirst]. split; [done|].
    intros [|j] Hj; simpl; [congruence|]. apply Hfirst. lia.
Qed.

Lemma index_Raise (l : list string) (x : string) (e : Exception) :
  Py.index l x = Raise e -> e = ValueError /\ x ∉ l.
Proof.
  induction l as [|y l IH]; simpl.
  - intros [= <-]. split; [done|]. apply not_elem_of_nil.
  - destruct (String.eqb_spec y x) as [->|Hne]; [done|].
    destruct (Py.index l x) as [k|e']; [done|].
    intros [= <-]. destruct (IH eq_refl) as [-> Hnot]. split; [done|].
    rewrite elem_of_cons. intros [->|?]; done.
Qed.

Lemma index_elem_of (l : list string) (x : string) :
  x ∈ l -> exists i, Py.index l x = Ok i.
Proof.
  intros Hin. destruct (Py.index l x) as [i|e] eqn:E; [by exists i|].
  by destruct (index_Raise _ _ _ E).
Qed.

Lemma to_uint_nonnil (i : nat) : Nat.to_uint i <> Decimal.Nil.
Proof.
  rewrite <- (Unsigned.of_to i) at 1. rewrite Unsigned.to_of. apply unorm_nonnil.
Qed.

(** Decimal strings hold digits only; stripping leaves them as they are and
    reading them back gives the number. *)
Lemma rstrip_no_space (s : string) : no_space s = true -> Py.rstrip s = s.
Proof.
  induction s as [|a s IH]; simpl; [done|].
  intros [Ha Hs]%andb_prop. rewrite (IH Hs).
  apply negb_true_iff in Ha. rewrite Ha. by destruct s.
Qed.

Lemma lstrip_no_space (s : string) : no_space s = true -> Py.lstrip s = s.
Proof.
  destruct s as [|a s]; simpl; [done|].
  intros [Ha _]%andb_prop. apply negb_true_iff in Ha. by rewrite Ha.
Qed.

Lemma string_of_uint_no_space (d : Decimal.uint) :
  no_space (NilEmpty.string_of_uint d) = true.
Proof. induction d; simpl; done. Qed.

Lemma digits_string_of_uint (d : Decimal.uint) (acc : nat) (after_digit : bool) :
  d <> Decimal.Nil \/ after_digit = true ->
  Py.digits acc after_digit (NilEmpty.string_of_uint d) = Some (Nat.of_uint_acc d acc).
Proof.
  revert acc after_digit.
  induction d as [|d IH|d IH|d IH|d IH|d IH|d IH|d IH|d IH|d IH|d IH];
    intros acc after_digit Hd;
    [ destruct Hd as [Hd| ->]; [done|reflexivity]
    | cbn [NilEmpty.string_of_uint Py.digits Nat.of_uint_acc];
      change (Py.digit_value _) with (Some 0)
    | cbn [NilEmpty.string_of_uint Py.digits Nat.of_uint_acc];
      change (Py.digit_value _) with (Some 1)
    | cbn [NilEmpty.string_of_uint Py.digits Nat.of_uint_acc];
      change (Py.digit_value _) with (Some 2)
    | cbn [NilEmpty.string_of_uint Py.digits Nat.of_uint_acc];
      change (Py.digit_value _) with (Some 3)
    | cbn [NilEmpty.string_of_uint Py.digits Nat.of_uint_acc];
      change (Py.digit_value _) with (Some 4)
    | cbn [NilEmpty.string_of_uint Py.digits Nat.of_uint_acc];
      change (Py.digit_value _) with (Some 5)
    | cbn [NilEmpty.string_of_uint Py.digits Nat.of_uint_acc];
      change (Py.digit_value _) with (Some 6)
    | cbn [NilEmpty.string_of_uint Py.digits Nat.of_uint_acc];
      change (Py.digit_value _) with (Some 7)
    | cbn [NilEmpty.string_of_uint Py.digits Nat.of_uint_acc];
      change (Py.digit_value _) with (Some 8)
    | cbn [NilEmpty.string_of_uint Py.digits Nat.of_uint_acc];
      change (Py.digit_value _) with (Some 9) ];
    cbv iota; rewrite IH by (by right); rewrite Nat.tail_mul_spec;
    do 2 f_equal; lia.
Qed.

Lemma digits_str (i : nat) : Py.digits 0 false (Py.str i) = Some i.
Proof.
  unfold Py.str, NilZero.string_of_uint.
  pose proof (to_uint_nonnil i) as Hnonnil.
  pose proof (digits_string_of_uint (Nat.to_uint i) 0 false (or_introl Hnonnil)) as Hd.
  fold (Nat.of_uint (Nat.to_uint i)) in Hd. rewrite Unsigned.of_to in Hd.
  by destruct (Nat.to_uint i).
Qed.

Lemma str_no_space (i : nat) : no_space (Py.str i) = true.
Proof.
  unfold Py.str, NilZero.string_of_uint.
  pose proof (string_of_uint_no_space (Nat.to_uint i)) as Hs.
  by destruct (Nat.to_uint i).
Qed.

(** [str(i)] starts with a digit. *)
Lemma str_head (i : nat) :
  exists a s, Py.str i = String a s
              /\ Ascii.eqb a "-" = false /\ Ascii.eqb a "+" = false.
Proof.
  unfold Py.str, NilZero.string_of_uint.
  destruct (Nat.to_uint i); simpl; eauto.
Qed.

(** [int(str(i)) == i]. *)
Lemma int_str (i : nat) : Py.int (Py.str i) = Ok (Z.of_nat i).
Proof.
  unfold Py.int.
  rewrite (rstrip_no_space _ (str_no_space i)), (lstrip_no_space _ (str_no_space i)).
  pose proof (digits_str i) as Hd.
  destruct (str_head i) as (a & s & Hs & Hminus & Hplus).
  rewrite Hs in *. by rewrite Hminus, Hplus, Hd.
Qed.

(** ** The date fields are the decimal numerals of the date *)

Lemma digit_mod (n : nat) : digit (n mod 10) = digit n.
Proof. unfold digit. by rewrite Nat.Div0.mod_mod. Qed.

Lemma string_of_uint_dig (k : nat) (rest : Decimal.uint) :
  k < 10 ->
  NilEmpty.string_of_uint (dig k rest) = String (digit k) (NilEmpty.string_of_uint rest).
Proof.
  intros Hk. do 10 (destruct k as [|k]; [reflexivity|]). lia.
Qed.

Lemma string_of_uint_dig_head (k : nat) (rest : Decimal.uint) :
  NilZero.string_of_uint (dig k rest) = NilEmpty.string_of_uint (dig k rest).
Proof. do 9 (destruct k as [|k]; [reflexivity|]). reflexivity. Qed.

Lemma of_uint_acc_dig (k : nat) (rest : Decimal.uint) (acc : nat) :
  k < 10 -> Nat.of_uint_acc (dig k rest) acc = Nat.of_uint_acc rest (10 * acc + k).
Proof.
  intros Hk.
  do 10 (destruct k as [|k];
         [ cbn [dig Nat.of_uint_acc]; rewrite Nat.tail_mul_spec; f_equal; lia |]).
  lia.
Qed.

Lemma unorm_dig (k : nat) (rest : Decimal.uint) :
  1 <= k < 10 -> Decimal.unorm (dig k rest) = dig k rest.
Proof.
  intros Hk. destruct k as [|k]; [lia|].
  do 9 (destruct k as [|k]; [reflexivity|]). lia.
Qed.

(** A numeral with a leading digit from 1 to 9 is the numeral of its value. *)
Lemma to_uint_dig (k : nat) (rest : Decimal.uint) :
  1 <= k < 10 -> Nat.to_uint (Nat.of_uint (dig k rest)) = dig k rest.
Proof. intros Hk. by rewrite Unsigned.to_of, unorm_dig. Qed.

Lemma str_one_digit (b : nat) : b < 10 -> Py.str b = String (digit b) "".
Proof. intros Hb. do 10 (destruct b as [|b]; [reflexivity|]). lia. Qed.

Lemma str_two_digits (a b : nat) :
  1 <= a < 10 -> b < 10 ->
  Py.str (10 * a + b) = String (digit a) (String (digit b) "").
Proof.
  intros Ha Hb. unfold Py.str.
  replace (10 * a + b) with (Nat.of_uint (dig a (dig b Decimal.Nil))).
  - rewrite to_uint_dig by done.
    by rewrite string_of_uint_dig_head, !string_of_uint_dig by lia.
  - unfold Nat.of_uint. rewrite !of_uint_acc_dig by lia. simpl. lia.
Qed.

Lemma str_four_digits (a b c d : nat) :
  1 <= a < 10 -> b < 10 -> c < 10 -> d < 10 ->
  Py.str (1000 * a + 100 * b + 10 * c + d)
  = String (digit a) (String (digit b) (String (digit c) (String (digit d) ""))).
Proof.
  intros Ha Hb Hc Hd. unfold Py.str.
  replace (1000 * a + 100 * b + 10 * c + d)
    with (Nat.of_uint (dig a (dig b (dig c (dig d Decimal.Nil))))).
  - rewrite to_uint_dig by done.
    by rewrite string_of_uint_dig_head, !string_of_uint_dig by lia.
  - unfold Nat.of_uint. rewrite !of_uint_acc_dig by lia. simpl. lia.
Qed.

(** [%m] and [%d]: two digits, a zero in front of a value below ten. *)
Lemma digits2_str (m : nat) :
  m <= 99 ->
  digits2 m = if (m <? 10)%nat then "0" ++ Py.str m else Py.str m.
Proof.
  intros Hm. unfold digits2.
  pose proof (Nat.div_mod_eq m 10) as Hdiv.
  pose proof (Nat.mod_upper_bound m 10) as Hmod.
  destruct (Nat.ltb_spec m 10) as [Hlt|Hge].
  - rewrite (Nat.div_small m 10) by done. by rewrite str_one_digit.
  - rewrite Hdiv at 3. rewrite str_two_digits by lia. by rewrite digit_mod.
Qed.

(** [%Y] on a year of four digits. *)
Lemma digits4_str (y : nat) :
  (1000 <= Z.of_nat y <= 9999)%Z -> digits4 y = Py.str y.
Proof.
  intros Hy. unfold digits4, digits2.
  pose proof (Nat.div_mod_eq y 10) as H1.
  pose proof (Nat.div_mod_eq (y / 10) 10) as H2.
  pose proof (Nat.div_mod_eq (y / 100) 10) as H3.
  rewrite (Nat.Div0.div_div y 10 10) in H2. change (10 * 10) with 100 in H2.
  rewrite (Nat.Div0.div_div y 100 10) in H3. change (100 * 10) with 1000 in H3.
  pose proof (Nat.mod_upper_bound y 10) as B1.
  pose proof (Nat.mod_upper_bound (y / 10) 10) as B2.
  pose proof (Nat.mod_upper_bound (y / 100) 10) as B3.
  assert (y = 1000 * (y / 1000) + 100 * ((y / 100) mod 10)
              + 10 * ((y / 10) mod 10) + y mod 10) as Hy4 by lia.
  assert (1 <= y / 1000 < 10) as Ha by lia.
  rewrite Hy4 at 5. rewrite str_four_digits by lia.
  by rewrite !digit_mod.
Qed.

(** ** Format filtering *)

Section Formats.

Implicit Types (self : View) (f : FormatClass).

Lemma get_export_formats_filter self :
  get_export_formats self = List.filter exportable (formats self).
Proof.
  unfold get_export_formats. rewrite comprehension_spec. apply map_id.
Qed.

Lemma get_import_formats_filter self :
  get_import_formats self = List.filter importable (formats self).
Proof.
  unfold get_import_formats. rewrite comprehension_spec. apply map_id.
Qed.

Lemma get_allowed_export_formats_titles self :
  get_allowed_export_formats self
  = map (fun f => get_title (construct f)) (get_export_formats self).
Proof.
  unfold get_allowed_export_formats.
  by rewrite comprehension_spec, get_export_formats_filter.
Qed.

(** C1: [get_export_formats()] is the ordered sublist of [formats] whose
    instances answer [can_export()] with true (the same elements, in the
    order of [formats]), and [get_import_formats()] is the ordered sublist of
    those answering [can_import()] with true. *)
Theorem get_formats_ordered_sublist self :
  (get_export_formats self = List.filter exportable (formats self)
   /\ sublist (get_export_formats self) (formats self)
   /\ forall f, f ∈ get_export_formats self
                <-> f ∈ formats self /\ can_export (construct f) = true)
  /\ (get_import_formats self = List.filter importable (formats self)
      /\ sublist (get_import_formats self) (formats self)
      /\ forall f, f ∈ get_import_formats self
                   <-> f ∈ formats self /\ can_import (construct f) = true).
Proof.
  split.
  - rewrite get_export_formats_filter. split; [done|]. split.
    + apply filter_sublist.
    + intros f. rewrite !list_elem_of_In. apply filter_In.
  - rewrite get_import_formats_filter. split; [done|]. split.
    + apply filter_sublist.
    + intros f. rewrite !list_elem_of_In. apply filter_In.
Qed.

Lemma index_allowed_selects self (title : string) (i : nat) :
  Py.index (get_allowed_export_formats self) title = Ok i ->
  exists f, get_export_formats self !! i = Some f
            /\ Py.getitem (get_export_formats self) (Z.of_nat i) = Ok f
            /\ get_title (construct f) = title.
Proof.
  rewrite get_allowed_export_formats_titles.
  intros Hi. apply index_Ok in Hi as [Hi _].
  rewrite list_lookup_fmap in Hi.
  destruct (get_export_formats self !! i) as [f|] eqn:Hf; [|done].
  exists f. split; [done|]. split; [by apply getitem_lookup|]. by injection Hi.
Qed.

(** C2: the allowed titles are the titles of the export formats, position by
    position, so a title found at a position of [get_allowed_export_formats()]
    selects, at that position of [get_export_formats()], a format bearing
    that title. *)
Theorem allowed_titles_aligned self :
  length (get_allowed_export_formats self) = length (get_export_formats self)
  /\ (forall i, get_allowed_export_formats self !! i
                = (fun f => get_title (construct f)) <$> (get_export_formats self !! i))
  /\ (forall title i,
        Py.index (get_allowed_export_formats self) title = Ok i ->
        exists f, Py.getitem (get_export_formats self) (Z.of_nat i) = Ok f
                  /\ get_title (construct f) = title).
Proof.
  split; [|split].
  - rewrite get_allowed_export_formats_titles. apply length_map.
  - intros i. rewrite get_allowed_export_formats_titles. apply list_lookup_fmap.
  - intros title i Hi.
    destruct (index_allowed_selects _ _ _ Hi) as (f & _ & Hget & Htitle).
    by exists f.
Qed.

End Formats.

(** ** Runs of the export methods *)

(** Exposes the two branches of a run past the selection of the format. *)
Ltac outcome := unfold form_valid_outcome, export_outcome; cbv zeta.

Section Runs.

Variable mf : option ModelClass -> ResourceClass.

Implicit Types (self : View) (ff : Format) (w : World) (q : Queryset).

Lemma extend_extend w (a b : list Event) :
  extend (extend w a) b = extend w (a ++ b)%list.
Proof. unfold extend. simpl. by rewrite app_assoc. Qed.

Lemma emit_run (e : Event) w : emit e w = (extend w [e], Ok tt).
Proof. reflexivity. Qed.

Lemma get_data_for_export_run self (r : Request) q w :
  get_data_for_export mf self r q w
  = (extend w [ResourceInit (get_export_resource_class mf self) ∅;
               ResourceExport q],
     Ok (exported_dataset mf self q)).
Proof.
  unfold get_data_for_export, bind. rewrite !emit_run, extend_extend.
  reflexivity.
Qed.

Lemma get_export_data_run self ff q w :
  get_export_data mf self ff q w
  = (extend w (export_calls mf self ff q), Ok (exported_bytes mf self ff q)).
Proof.
  unfold get_export_data, bind.
  rewrite get_data_for_export_run, emit_run, extend_extend. reflexivity.
Qed.

Lemma get_export_filename_run self ff w :
  get_export_filename self ff w
  = (w, match declared_model self with
        | Some T => Ok (export_filename T (clock w) ff)
        | None => Raise AttributeError
        end).
Proof.
  unfold get_export_filename, declared_model, bind, now, getattr, ret, raise.
  destruct (resource_class self) as [rc|]; [|done].
  destruct (Meta rc) as [meta|]; [|done].
  by destruct (Meta_model meta).
Qed.

(** The fallback of the response construction is never taken. *)
Lemma HttpResponse_run (body : bytes) (ct : string) w :
  try_except (HttpResponse body content_type_kw ct) TypeError
             (HttpResponse body mimetype_kw ct) w
  = (w, Ok {| status_code := 200; content := Bytes body;
              headers := {[ "Content-Type" := ct ]} |}).
Proof. reflexivity. Qed.

Lemma form_valid_selected self (form : Form) w choice z cls :
  cleaned_data form !! "file_format" = Some choice ->
  Py.int choice = Ok z ->
  Py.getitem (get_export_formats self) z = Ok cls ->
  form_valid mf self form w = form_valid_outcome mf self cls w.
Proof.
  intros Hchoice Hint Hcls.
  unfold form_valid, form_valid_outcome, bind, lift, Py.dict_getitem.
  rewrite Hchoice, Hint, Hcls.
  unfold form_queryset, form_query_event.
  destruct (filterset self) as [cap|]; rewrite emit_run; unfold ret;
    rewrite get_export_data_run, HttpResponse_run, get_export_filename_run, !extend_extend;
    destruct (declared_model self) as [T|]; try reflexivity;
    rewrite emit_run, extend_extend; simpl; reflexivity.
Qed.

Lemma export_selected self (r : Request) w i cls :
  Py.index (get_allowed_export_formats self) (Py.dict_get (GET r) "format" "csv") = Ok i ->
  Py.getitem (get_export_formats self) (Z.of_nat i) = Ok cls ->
  export mf self r w = export_outcome mf self cls w.
Proof.
  intros Hi Hcls.
  unfold export, export_outcome, bind, lift.
  rewrite Hi, Hcls, !emit_run.
  rewrite get_export_data_run, HttpResponse_run, get_export_filename_run, !extend_extend.
  destruct (declared_model self) as [T|]; reflexivity.
Qed.

Lemma export_rejected self (r : Request) w e :
  Py.index (get_allowed_export_formats self) (Py.dict_get (GET r) "format" "csv") = Raise e ->
  export mf self r w = (w, Ok (JsonResponse {[ "message" := "format is not supported" ]} 400)).
Proof.
  intros He. unfold export. rewrite He.
  destruct (index_Raise _ _ _ He) as [-> _]. reflexivity.
Qed.

End Runs.

(** ** Which exceptions the selection steps raise *)

Lemma int_raises (s : string) (e : Exception) : Py.int s = Raise e -> e = ValueError.
Proof.
  unfold Py.int. destruct (Py.lstrip (Py.rstrip s)) as [|a s']; [congruence|].
  destruct (Ascii.eqb a "-"); [|destruct (Ascii.eqb a "+")];
    match goal with |- context [match ?o with Some _ => _ | None => _ end] => destruct o end;
    congruence.
Qed.

Lemma getitem_raises {A : Type} (l : list A) (z : Z) (e : Exception) :
  Py.getitem l z = Raise e -> e = IndexError.
Proof.
  unfold Py.getitem. cbv zeta.
  destruct (_ || _); [congruence|].
  match goal with |- context [match ?o with Some _ => _ | None => _ end] => destruct o end;
    congruence.
Qed.

Lemma getitem_out_of_range {A : Type} (l : list A) (i : nat) :
  length l <= i -> Py.getitem l (Z.of_nat i) = Raise IndexError.
Proof.
  intros Hge. unfold Py.getitem. cbv zeta.
  assert ((Z.of_nat i <? 0)%Z = false) as Hneg by (apply Z.ltb_ge; lia).
  assert ((Z.of_nat (length l) <=? Z.of_nat i)%Z = true) as Hout by (apply Z.leb_le; lia).
  by rewrite !Hneg, Hout.
Qed.

Section Cases.

Variable mf : option ModelClass -> ResourceClass.

Implicit Types (self : View) (ff : Format) (w : World) (q : Queryset).

(** Every run of [form_valid] either stops in the selection of the format,
    leaving the world as it was, or continues with a selected class. *)
Lemma form_valid_cases self (form : Form) w :
  (exists cls, form_valid mf self form w = form_valid_outcome mf self cls w)
  \/ (exists e, form_valid mf self form w = (w, Raise e)
                 /\ (e = KeyError \/ e = ValueError \/ e = IndexError)).
Proof.
  destruct (cleaned_data form !! "file_format") as [choice|] eqn:Hchoice.
  - destruct (Py.int choice) as [z|e] eqn:Hint.
    + destruct (Py.getitem (get_export_formats self) z) as [cls|e] eqn:Hcls.
      * left. exists cls. by eapply form_valid_selected.
      * right. exists e. apply getitem_raises in Hcls as Hkind. split; [|auto].
        unfold form_valid, bind, lift, Py.dict_getitem. by rewrite Hchoice, Hint, Hcls.
    + right. exists e. apply int_raises in Hint as Hkind. split; [|auto].
      unfold form_valid, bind, lift, Py.dict_getitem. by rewrite Hchoice, Hint.
  - right. exists KeyError. split; [|auto].
    unfold form_valid, bind, lift, Py.dict_getitem. by rewrite Hchoice.
Qed.

(** Every run of [export] either rejects the title, leaving the world as it
    was, or continues with a selected class. *)
Lemma export_cases self (r : Request) w :
  (exists cls, export mf self r w = export_outcome mf self cls w)
  \/ export mf self r w
     = (w, Ok (JsonResponse {[ "message" := "format is not supported" ]} 400)).
Proof.
  destruct (Py.index (get_allowed_export_formats self)
              (Py.dict_get (GET r) "format" "csv")) as [i|e] eqn:Hi.
  - left. destruct (index_allowed_selects _ _ _ Hi) as (cls & _ & Hget & _).
    exists cls. by eapply export_selected.
  - right. by eapply export_rejected.
Qed.

Lemma form_valid_outcome_events self cls w :
  events (fst (form_valid_outcome mf self cls w))
  = (events w
     ++ (form_query_event self :: export_calls mf self (construct cls) (form_queryset self))
     ++ match snd (form_valid_outcome mf self cls w) with
        | Ok _ => [PostExport None (model self)]
        | Raise _ => []
        end)%list.
Proof.
  outcome.
  destruct (declared_model self); reflexivity.
Qed.

Lemma form_valid_outcome_Ok self cls w (resp : Response) :
  snd (form_valid_outcome mf self cls w) = Ok resp ->
  exists T, declared_model self = Some T
            /\ resp = download (construct cls)
                        (exported_bytes mf self (construct cls) (form_queryset self))
                        (export_filename T (clock w) (construct cls)).
Proof.
  outcome.
  destruct (declared_model self) as [T|]; simpl; [|done].
  intros [= <-]. by exists T.
Qed.

Lemma export_outcome_Ok self cls w (resp : Response) :
  snd (export_outcome mf self cls w) = Ok resp ->
  exists T, declared_model self = Some T
            /\ resp = download (construct cls)
                        (exported_bytes mf self (construct cls)
                           (filter_queryset self (get_queryset self)))
                        (export_filename T (clock w) (construct cls)).
Proof.
  outcome.
  destruct (declared_model self) as [T|]; simpl; [|done].
  intros [= <-]. by exists T.
Qed.

Lemma download_headers ff (body : bytes) (filename : string) :
  headers (download ff body filename) !! "Content-Type" = Some (get_content_type ff)
  /\ headers (download ff body filename) !! "Content-Disposition"
     = Some ("attachment; filename=" ++ dquote ++ filename ++ dquote).
Proof.
  unfold download. simpl. split.
  - rewrite lookup_insert_ne by done. apply lookup_singleton_eq.
  - apply lookup_insert_eq.
Qed.

Lemma declared_model_chain self rc meta T :
  resource_class self = Some rc -> Meta rc = Some meta -> Meta_model meta = Some T ->
  declared_model self = Some T.
Proof. unfold declared_model. by intros -> -> ->. Qed.

End Cases.

(** ** The specification's claims *)

Section Claims.

Variable mf : option ModelClass -> ResourceClass.

Implicit Types (self : View) (ff : Format) (w : World) (q : Queryset).

(** C3: when the requested title (the [format] query parameter, "csv" when it
    is absent) is not among the allowed titles, [export] answers at once with
    status 400 and the JSON body [{"message": "format is not supported"}]; the
    world is the one it started from, so no resource was constructed, no
    queryset fetched and nothing encoded. *)
Theorem export_unsupported_format self (request : Request) w :
  Py.dict_get (GET request) "format" "csv" ∉ get_allowed_export_formats self ->
  export mf self request w
  = (w, Ok {| status_code := 400;
              content := Json {[ "message" := "format is not supported" ]};
              headers := {[ "Content-Type" := "application/json" ]} |}).
Proof.
  intros Hnot.
  destruct (Py.index (get_allowed_export_formats self)
              (Py.dict_get (GET request) "format" "csv")) as [i|e] eqn:Hi.
  - apply index_Ok in Hi as [Hi _]. destruct Hnot. by eapply list_elem_of_lookup_2.
  - by rewrite (export_rejected _ _ _ _ _ Hi).
Qed.

(** C4 (amended): on a view whose configured [resource_class] declares its
    record type ([resource_class.Meta.model]), every request whose title
    ("csv" when the [format] parameter is absent) is in the allowed list gets
    a response with status 200, whose Content-Type is the content type of the
    format resolved from the title (the first export format bearing it),
    whose Content-Disposition is the attachment header with the derived
    filename, and whose body is that format's encoding of the export of the
    framework-filtered queryset. *)
Theorem export_supported_format self (request : Request) w rc meta T :
  resource_class self = Some rc ->
  Meta rc = Some meta ->
  Meta_model meta = Some T ->
  Py.dict_get (GET request) "format" "csv" ∈ get_allowed_export_formats self ->
  exists i cls resp,
    Py.index (get_allowed_export_formats self) (Py.dict_get (GET request) "format" "csv") = Ok i
    /\ get_export_formats self !! i = Some cls
    /\ get_title (construct cls) = Py.dict_get (GET request) "format" "csv"
    /\ snd (export mf self request w) = Ok resp
    /\ status_code resp = 200%Z
    /\ headers resp !! "Content-Type" = Some (get_content_type (construct cls))
    /\ headers resp !! "Content-Disposition"
       = Some ("attachment; filename=" ++ dquote
               ++ (__name__ T ++ "-" ++ strftime_Ymd (clock w) ++ "."
                   ++ get_extension (construct cls))
               ++ dquote)
    /\ content resp
       = Bytes (export_data (construct cls)
                  (export_queryset (init rc ∅) (filter_queryset self (get_queryset self)))).
Proof.
  intros Hrc Hmeta HT Hin.
  destruct (index_elem_of _ _ Hin) as [i Hi].
  destruct (index_allowed_selects _ _ _ Hi) as (cls & Hcls & Hget & Htitle).
  exists i, cls. eexists. split; [done|]. split; [done|]. split; [done|].
  rewrite (export_selected mf _ _ w _ _ Hi Hget). outcome.
  rewrite (declared_model_chain _ _ _ _ Hrc Hmeta HT). simpl.
  split; [reflexivity|]. split; [reflexivity|].
  destruct (download_headers (construct cls)
              (exported_bytes mf self (construct cls) (filter_queryset self (get_queryset self)))
              (export_filename T (clock w) (construct cls))) as [Hct Hcd].
  split; [exact Hct|]. split; [exact Hcd|].
  unfold exported_bytes, exported_dataset, get_export_resource_class, get_resource_class.
  by rewrite Hrc.
Qed.

(** C5: for every format [f], [get_export_filename(f)] returns
    "<T>-<YYYY-MM-DD>.<ext>", leaving the world as it was. [T] is the name of
    the record type declared by the configured [resource_class] (its
    [Meta.model]); the date is the clock's at the call, written as the
    decimal numeral of the year (four digits), of the month and of the day
    (two digits each, a zero in front of a value below ten), on a date as
    the clock gives them (a year from 1000 to 9999, a month from 1 to 12, a
    day from 1 to 31); [ext] is [f.get_extension()]. The class the export
    resolves does not enter: the result is the same on every view with the
    same [resource_class] attribute, and on a view that leaves the attribute
    at [None] the call raises, whatever [get_export_resource_class()]
    resolves to there. *)
Theorem get_export_filename_format self ff w rc meta T :
  resource_class self = Some rc ->
  Meta rc = Some meta ->
  Meta_model meta = Some T ->
  (1000 <= Z.of_nat (year (clock w)) <= 9999)%Z ->
  1 <= month (clock w) <= 12 ->
  1 <= day (clock w) <= 31 ->
  get_export_filename self ff w
  = (w, Ok (__name__ T
            ++ "-"
            ++ (Py.str (year (clock w))
                ++ "-" ++ (if (month (clock w) <? 10)%nat
                           then "0" ++ Py.str (month (clock w))
                           else Py.str (month (clock w)))
                ++ "-" ++ (if (day (clock w) <? 10)%nat
                           then "0" ++ Py.str (day (clock w))
                           else Py.str (day (clock w))))
            ++ "." ++ get_extension ff))
  /\ (forall other : View,
        resource_class other = resource_class self ->
        get_export_filename other ff w = get_export_filename self ff w)
  /\ (forall other : View,
        resource_class other = None ->
        get_export_resource_class mf other = mf (model other)
        /\ get_export_filename other ff w = (w, Raise AttributeError)).
Proof.
  intros Hrc Hmeta HT Hyear Hmonth Hday. split; [|split].
  - rewrite get_export_filename_run.
    rewrite (declared_model_chain _ _ _ _ Hrc Hmeta HT).
    unfold export_filename, strftime_Ymd.
    rewrite (digits4_str _ Hyear).
    rewrite (digits2_str (month (clock w))) by lia.
    rewrite (digits2_str (day (clock w))) by lia.
    reflexivity.
  - intros other Hsame. rewrite !get_export_filename_run.
    unfold declared_model. by rewrite Hsame.
  - intros other Hnone. split.
    + unfold get_export_resource_class, get_resource_class. by rewrite Hnone.
    + rewrite get_export_filename_run. unfold declared_model. by rewrite Hnone.
Qed.

(** C6: when the submitted [file_format] is the decimal string of [i] and [i]
    is within [get_export_formats()], [form_valid] takes the format class at
    position [i]: the data is encoded by its instance, a response carries that
    encoding, its content type and a filename with its extension, and the run
    raises no [IndexError]. An index past the end of the list is not guarded
    against: the run stops with [IndexError] before any call is made. *)
Theorem form_valid_selects_by_index self (form : Form) w (i : nat) :
  cleaned_data form !! "file_format" = Some (Py.str i) ->
  (i < length (get_export_formats self) ->
   exists cls,
     get_export_formats self !! i = Some cls
     /\ snd (form_valid mf self form w) <> Raise IndexError
     /\ events (fst (form_valid mf self form w))
        = (events w
           ++ [ form_query_event self;
                ResourceInit (get_export_resource_class mf self) ∅;
                ResourceExport (form_queryset self);
                FormatExportData (construct cls)
                  (export_queryset (init (get_export_resource_class mf self) ∅)
                     (form_queryset self)) ]
           ++ match snd (form_valid mf self form w) with
              | Ok _ => [PostExport None (model self)]
              | Raise _ => []
              end)%list
     /\ forall resp, snd (form_valid mf self form w) = Ok resp ->
          content resp
          = Bytes (export_data (construct cls)
                     (export_queryset (init (get_export_resource_class mf self) ∅)
                        (form_queryset self)))
          /\ headers resp !! "Content-Type" = Some (get_content_type (construct cls))
          /\ exists T, declared_model self = Some T
                       /\ headers resp !! "Content-Disposition"
                          = Some ("attachment; filename=" ++ dquote
                                  ++ (__name__ T ++ "-" ++ strftime_Ymd (clock w) ++ "."
                                      ++ get_extension (construct cls))
                                  ++ dquote))
  /\ (length (get_export_formats self) <= i ->
      form_valid mf self form w = (w, Raise IndexError)).
Proof.
  intros Hchoice. split.
  - intros Hlt. destruct (lookup_lt_is_Some_2 _ _ Hlt) as [cls Hcls].
    exists cls. split; [done|].
    rewrite (form_valid_selected mf self form w _ _ cls Hchoice (int_str i)
               (getitem_lookup _ _ _ Hcls)).
    split; [|split].
    + outcome. by destruct (declared_model self).
    + apply form_valid_outcome_events.
    + intros resp Hresp.
      apply form_valid_outcome_Ok in Hresp as (T & HT & ->).
      destruct (download_headers (construct cls)
                  (exported_bytes mf self (construct cls) (form_queryset self))
                  (export_filename T (clock w) (construct cls))) as [Hct Hcd].
      split; [reflexivity|]. split; [exact Hct|]. by exists T.
  - intros Hge. unfold form_valid, bind, lift, Py.dict_getitem.
    by rewrite Hchoice, int_str, (getitem_out_of_range _ _ Hge).
Qed.

(** C7: a run of [form_valid] that returns a response has sent [post_export]
    exactly once, with the view's [model], as its last call before returning;
    a run of [export] on the same view sends no [post_export], whatever the
    request and whether or not it returns a response. *)
Theorem post_export_only_from_form self :
  (forall (form : Form) w w' resp,
      form_valid mf self form w = (w', Ok resp) ->
      exists calls,
        events w' = (events w ++ calls ++ [PostExport None (model self)])%list
        /\ List.filter is_post_export calls = [])
  /\ (forall (request : Request) w,
        exists calls,
          events (fst (export mf self request w)) = (events w ++ calls)%list
          /\ List.filter is_post_export calls = []).
Proof.
  split.
  - intros form w w' resp Hrun.
    destruct (form_valid_cases mf self form w) as [[cls Hcls]|[e [He _]]]; [|congruence].
    rewrite Hcls in Hrun. unfold form_valid_outcome in Hrun. cbv zeta in Hrun.
    destruct (declared_model self) as [T|]; [|done].
    injection Hrun as <- _.
    exists (form_query_event self
            :: export_calls mf self (construct cls) (form_queryset self)).
    split; [reflexivity|].
    unfold form_query_event. by destruct (filterset self).
  - intros request w.
    destruct (export_cases mf self request w) as [[cls ->]| ->].
    + outcome.
      exists (GetQueryset :: FilterQueryset (get_queryset self)
              :: export_calls mf self (construct cls)
                   (filter_queryset self (get_queryset self))).
      by destruct (declared_model self).
    + exists []. simpl. by rewrite app_nil_r.
Qed.

(** C8: [get_resource_class()] returns the configured [resource_class] when
    there is one, and otherwise the class the factory derives from the view's
    [model]; [get_import_resource_class()] and [get_export_resource_class()]
    return the same class. *)
Theorem get_resource_class_resolution self :
  (forall rc, resource_class self = Some rc -> get_resource_class mf self = rc)
  /\ (resource_class self = None -> get_resource_class mf self = mf (model self))
  /\ get_import_resource_class mf self = get_resource_class mf self
  /\ get_export_resource_class mf self = get_resource_class mf self.
Proof.
  unfold get_import_resource_class, get_export_resource_class, get_resource_class.
  split; [|split; [|split]]; try reflexivity.
  - by intros rc ->.
  - by intros ->.
Qed.

(** C9: once the format is selected, [form_valid] exports the queryset of the
    filter set when the view has [get_filterset], and the result of
    [get_queryset()] when it has not; which of the two is decided by the
    presence of the attribute alone. *)
Theorem form_valid_queryset_choice self (form : Form) w choice z cls :
  cleaned_data form !! "file_format" = Some choice ->
  Py.int choice = Ok z ->
  Py.getitem (get_export_formats self) z = Ok cls ->
  let '(fetch, q) :=
    match filterset self with
    | Some cap => (GetFilterset, qs (get_filterset cap (get_filterset_class cap)))
    | None => (GetQueryset, get_queryset self)
    end in
  (exists rest,
      events (fst (form_valid mf self form w))
      = (events w
         ++ [ fetch;
              ResourceInit (get_export_resource_class mf self) ∅;
              ResourceExport q;
              FormatExportData (construct cls)
                (export_queryset (init (get_export_resource_class mf self) ∅) q) ]
         ++ rest)%list
      /\ (rest = [] \/ rest = [PostExport None (model self)]))
  /\ forall resp, snd (form_valid mf self form w) = Ok resp ->
       content resp
       = Bytes (export_data (construct cls)
                  (export_queryset (init (get_export_resource_class mf self) ∅) q)).
Proof.
  intros Hchoice Hint Hcls.
  rewrite (form_valid_selected mf self form w _ _ cls Hchoice Hint Hcls).
  pose proof (form_valid_outcome_events mf self cls w) as Hev.
  pose proof (form_valid_outcome_Ok mf self cls w) as Hok.
  unfold form_query_event, form_queryset, export_calls, exported_bytes, exported_dataset in *.
  destruct (filterset self) as [cap|]; (split;
    [ eexists; split; [exact Hev|];
      destruct (snd (form_valid_outcome mf self cls w)); auto
    | intros resp Hresp; by destruct (Hok resp Hresp) as (T & _ & ->) ]).
Qed.

(** C10: on a view whose [resource_class] is left at [None],
    [get_export_filename] raises [AttributeError], while
    [get_resource_class()] answers with the factory's class and
    [get_data_for_export] returns its export; so [form_valid] never returns a
    response there, and the only response [export] returns is the rejection
    of the title. *)
Theorem default_resource_class_breaks_filename self :
  resource_class self = None ->
  (forall ff w, get_export_filename self ff w = (w, Raise AttributeError))
  /\ get_resource_class mf self = mf (model self)
  /\ (forall (request : Request) q w,
        snd (get_data_for_export mf self request q w)
        = Ok (export_queryset (init (mf (model self)) ∅) q))
  /\ (forall (form : Form) w resp, snd (form_valid mf self form w) <> Ok resp)
  /\ (forall (form : Form) w choice z cls,
        cleaned_data form !! "file_format" = Some choice ->
        Py.int choice = Ok z ->
        Py.getitem (get_export_formats self) z = Ok cls ->
        snd (form_valid mf self form w) = Raise AttributeError)
  /\ (forall (request : Request) w,
        Py.dict_get (GET request) "format" "csv" ∈ get_allowed_export_formats self ->
        snd (export mf self request w) = Raise AttributeError)
  /\ (forall (request : Request) w resp,
        snd (export mf self request w) = Ok resp -> status_code resp = 400%Z).
Proof.
  intros Hnone.
  assert (declared_model self = None) as Hdecl by (unfold declared_model; by rewrite Hnone).
  split; [|split; [|split; [|split; [|split; [|split]]]]].
  - intros ff w. by rewrite get_export_filename_run, Hdecl.
  - unfold get_resource_class. by rewrite Hnone.
  - intros request q w. rewrite get_data_for_export_run. simpl.
    unfold exported_dataset, get_export_resource_class, get_resource_class.
    by rewrite Hnone.
  - intros form w resp.
    destruct (form_valid_cases mf self form w) as [[cls ->]|[e [-> _]]]; [|done].
    outcome. by rewrite Hdecl.
  - intros form w choice z cls Hchoice Hint Hcls.
    rewrite (form_valid_selected mf self form w _ _ cls Hchoice Hint Hcls).
    outcome. by rewrite Hdecl.
  - intros request w Hin.
    destruct (index_elem_of _ _ Hin) as [i Hi].
    destruct (index_allowed_selects _ _ _ Hi) as (cls & _ & Hget & _).
    rewrite (export_selected mf _ _ w _ _ Hi Hget).
    outcome. by rewrite Hdecl.
  - intros request w resp.
    destruct (export_cases mf self request w) as [[cls ->]| ->].
    + intros Hresp. apply export_outcome_Ok in Hresp as (T & HT & _). congruence.
    + by intros [= <-].
Qed.

End Claims.

(** ** The claims on the concrete collaborators *)

Lemma export_unsupported_format_witness :
  (Py.dict_get (GET (Demo.asking "pdf")) "format" "csv"
     ∉ get_allowed_export_formats Demo.book_view)
  /\ export Demo.factory Demo.book_view (Demo.asking "pdf") Demo.today
     = (Demo.today,
        Ok {| status_code := 400;
              content := Json {[ "message" := "format is not supported" ]};
              headers := {[ "Content-Type" := "application/json" ]} |}).
Proof.
  assert (Py.dict_get (GET (Demo.asking "pdf")) "format" "csv"
            ∉ get_allowed_export_formats Demo.book_view) as Hnot by compute_done.
  split; [exact Hnot|].
  exact (export_unsupported_format Demo.factory Demo.book_view (Demo.asking "pdf")
           Demo.today Hnot).
Defined.

(** With a resource class that declares no record type the title "csv" is
    allowed and the action raises instead of answering. *)
Lemma export_supported_format_counterexample :
  Py.dict_get (GET (Demo.asking "csv")) "format" "csv"
    ∈ get_allowed_export_formats Demo.modelless_view
  /\ snd (export Demo.factory Demo.modelless_view (Demo.asking "csv") Demo.today)
     = Raise AttributeError.
Proof. split; [compute_done|reflexivity]. Qed.

Lemma export_supported_format_witness :
  Py.dict_get (GET (Demo.asking "xlsx")) "format" "csv"
    ∈ get_allowed_export_formats Demo.book_view
  /\ exists resp,
       snd (export Demo.factory Demo.book_view (Demo.asking "xlsx") Demo.today) = Ok resp
       /\ status_code resp = 200%Z
       /\ headers resp !! "Content-Type" = Some (get_content_type Demo.xlsx_format)
       /\ headers resp !! "Content-Disposition"
          = Some ("attachment; filename=" ++ dquote ++ "Book-2024-05-17.xlsx" ++ dquote)
       /\ content resp = Bytes "1|Emma;2|Ulysses".
Proof.
  assert (Py.dict_get (GET (Demo.asking "xlsx")) "format" "csv"
            ∈ get_allowed_export_formats Demo.book_view) as Hin by compute_done.
  split; [exact Hin|].
  destruct (export_supported_format Demo.factory Demo.book_view (Demo.asking "xlsx")
              Demo.today Demo.BookResource _ Demo.Book eq_refl eq_refl eq_refl Hin)
    as (i & cls & resp & Hi & Hcls & _ & Hrun & Hstatus & Hct & Hcd & Hbody).
  injection Hi as <-. injection Hcls as <-.
  exists resp. repeat split; assumption.
Defined.

Lemma get_export_filename_format_witness :
  resource_class Demo.book_view = Some Demo.BookResource
  /\ Meta Demo.BookResource = Some {| Meta_model := Some Demo.Book |}
  /\ get_export_filename Demo.book_view Demo.xlsx_format Demo.today
     = (Demo.today, Ok "Book-2024-05-17.xlsx")
  /\ get_export_resource_class Demo.factory Demo.default_view
     = Demo.factory (Some Demo.Book)
  /\ get_export_filename Demo.default_view Demo.xlsx_format Demo.today
     = (Demo.today, Raise AttributeError).
Proof.
  assert (1000 <= Z.of_nat (year (clock Demo.today)) <= 9999)%Z as Hyear
    by (simpl; lia).
  assert (1 <= month (clock Demo.today) <= 12) as Hmonth by (simpl; lia).
  assert (1 <= day (clock Demo.today) <= 31) as Hday by (simpl; lia).
  destruct (get_export_filename_format Demo.factory Demo.book_view Demo.xlsx_format
              Demo.today Demo.BookResource _ Demo.Book eq_refl eq_refl eq_refl
              Hyear Hmonth Hday) as (Hname & _ & Hnone).
  split; [reflexivity|]. split; [reflexivity|]. split; [exact Hname|].
  exact (Hnone Demo.default_view eq_refl).
Defined.

Lemma form_valid_selects_by_index_witness :
  cleaned_data (Demo.submitted "1") !! "file_format" = Some (Py.str 1)
  /\ 1 < length (get_export_formats Demo.book_view)
  /\ exists resp,
       snd (form_valid Demo.factory Demo.book_view (Demo.submitted "1") Demo.today) = Ok resp
       /\ content resp = Bytes "1|Emma;2|Ulysses;3|Dracula"
       /\ headers resp !! "Content-Type" = Some (get_content_type Demo.xlsx_format).
Proof.
  assert (1 < length (get_export_formats Demo.book_view)) as Hlt by (simpl; lia).
  split; [reflexivity|]. split; [exact Hlt|].
  destruct (proj1 (form_valid_selects_by_index Demo.factory Demo.book_view
                     (Demo.submitted "1") Demo.today 1 eq_refl) Hlt)
    as (cls & Hcls & _ & _ & Hresp).
  injection Hcls as <-.
  eexists. split; [reflexivity|].
  destruct (Hresp _ eq_refl) as (Hbody & Hct & _).
  split; [exact Hbody|exact Hct].
Defined.

Lemma post_export_only_from_form_witness :
  exists calls,
    events (fst (form_valid Demo.factory Demo.book_view (Demo.submitted "0") Demo.today))
    = (events Demo.today ++ calls ++ [PostExport None (Some Demo.Author)])%list
    /\ List.filter is_post_export calls = [].
Proof.
  refine (proj1 (post_export_only_from_form Demo.factory Demo.book_view)
            (Demo.submitted "0") Demo.today _
            (download Demo.csv_format
               (exported_bytes Demo.factory Demo.book_view Demo.csv_format Demo.books)
               (export_filename Demo.Book (clock Demo.today) Demo.csv_format)) _).
  vm_compute. reflexivity.
Defined.

Lemma get_resource_class_resolution_witness :
  get_resource_class Demo.factory Demo.book_view = Demo.BookResource
  /\ get_resource_class Demo.factory Demo.default_view = Demo.factory (Some Demo.Book).
Proof.
  split.
  - exact (proj1 (get_resource_class_resolution Demo.factory Demo.book_view)
             Demo.BookResource eq_refl).
  - exact (proj1 (proj2 (get_resource_class_resolution Demo.factory Demo.default_view))
             eq_refl).
Defined.

Lemma form_valid_queryset_choice_witness :
  Py.int "0" = Ok 0%Z
  /\ Py.getitem (get_export_formats Demo.filtered_view) 0 = Ok Demo.CSV
  /\ (forall resp,
        snd (form_valid Demo.factory Demo.filtered_view (Demo.submitted "0") Demo.today)
        = Ok resp ->
        content resp = Bytes "3,Dracula")
  /\ (forall resp,
        snd (form_valid Demo.factory Demo.book_view (Demo.submitted "0") Demo.today)
        = Ok resp ->
        content resp = Bytes ("1,Emma" ++ Demo.newline ++ "2,Ulysses"
                              ++ Demo.newline ++ "3,Dracula")).
Proof.
  split; [reflexivity|]. split; [reflexivity|]. split.
  - exact (proj2 (form_valid_queryset_choice Demo.factory Demo.filtered_view
                    (Demo.submitted "0") Demo.today "0" 0%Z Demo.CSV
                    eq_refl eq_refl eq_refl)).
  - exact (proj2 (form_valid_queryset_choice Demo.factory Demo.book_view
                    (Demo.submitted "0") Demo.today "0" 0%Z Demo.CSV
                    eq_refl eq_refl eq_refl)).
Defined.

Lemma default_resource_class_breaks_filename_witness :
  resource_class Demo.default_view = None
  /\ get_export_filename Demo.default_view Demo.csv_format Demo.today
     = (Demo.today, Raise AttributeError)
  /\ snd (get_data_for_export Demo.factory Demo.default_view Demo.get_request
            Demo.books Demo.today)
     = Ok Demo.books.
Proof.
  split; [reflexivity|].
  destruct (default_resource_class_breaks_filename Demo.factory Demo.default_view eq_refl)
    as (Hname & _ & Hdata & _).
  split; [apply Hname|apply Hdata].
Defined.

(** ** Further facts about the builtins *)

(** [int("-" + str(k)) == -k]. *)
Lemma int_minus_str (k : nat) : Py.int (String "-" (Py.str k)) = Ok (- Z.of_nat k)%Z.
Proof.
  unfold Py.int.
  assert (no_space (String "-" (Py.str k)) = true) as Hs
    by (simpl; apply str_no_space).
  rewrite (rstrip_no_space _ Hs), (lstrip_no_space _ Hs).
  change (Ascii.eqb "-" "-") with true. cbv iota.
  by rewrite digits_str.
Qed.

(** An index within [-len(l), len(l)) selects the element at its residue. *)
Lemma getitem_in_bounds {A : Type} (l : list A) (z : Z) :
  (- Z.of_nat (length l) <= z < Z.of_nat (length l))%Z ->
  exists x, l !! Z.to_nat (z mod Z.of_nat (length l))%Z = Some x
            /\ Py.getitem l z = Ok x.
Proof.
  intros Hz. unfold Py.getitem. cbv zeta.
  set (n := Z.of_nat (length l)) in *.
  assert ((z mod n)%Z = if (z <? 0)%Z then (z + n)%Z else z) as Hmod.
  { destruct (Z.ltb_spec z 0).
    - rewrite <- (Z.mod_small (z + n) n) by lia.
      rewrite <- (Z.mul_1_l n) at 2. by rewrite Z.mod_add by lia.
    - apply Z.mod_small. lia. }
  rewrite <- Hmod.
  assert (0 <= z mod n < n)%Z as Hrange by (apply Z.mod_pos_bound; lia).
  assert ((z mod n <? 0)%Z = false) as Hneg by (apply Z.ltb_ge; lia).
  assert ((n <=? z mod n)%Z = false) as Hin by (apply Z.leb_gt; lia).
  rewrite Hneg, Hin. simpl.
  destruct (lookup_lt_is_Some_2 l (Z.to_nat (z mod n)%Z)) as [x Hx]; [subst n; lia|].
  exists x. by rewrite Hx.
Qed.

Lemma getitem_out_of_bounds {A : Type} (l : list A) (z : Z) :
  ~ (- Z.of_nat (length l) <= z < Z.of_nat (length l))%Z ->
  Py.getitem l z = Raise IndexError.
Proof.
  intros Hz. unfold Py.getitem. cbv zeta.
  set (n := Z.of_nat (length l)) in *.
  destruct (Z.ltb_spec z 0) as [Hneg|Hpos].
  - assert ((z + n <? 0)%Z = true) as Hlow by (apply Z.ltb_lt; lia).
    by rewrite Hlow.
  - assert ((z <? 0)%Z = false) as Hlow by (apply Z.ltb_ge; lia).
    assert ((n <=? z)%Z = true) as Hhigh by (apply Z.leb_le; lia).
    by rewrite Hlow, Hhigh.
Qed.

(** Where the first element of a filtered and mapped list with a given image
    sits in the list itself. *)
Lemma index_map_filter_first {A : Type} (g : A -> string) (p : A -> bool)
    (l : list A) (t : string) (i : nat) :
  Py.index (map g (List.filter p l)) t = Ok i ->
  exists pre x post,
    l = (pre ++ x :: post)%list
    /\ p x = true /\ g x = t
    /\ Forall (fun y => p y = true -> g y <> t) pre
    /\ List.filter p l !! i = Some x.
Proof.
  revert i. induction l as [|y l IH]; intros i; simpl; [done|].
  destruct (p y) eqn:Hp; simpl.
  - destruct (String.eqb_spec (g y) t) as [Heq|Hne].
    + intros [= <-]. exists [], y, l. by repeat split.
    + destruct (Py.index (map g (List.filter p l)) t) as [k|e] eqn:Hk; [|done].
      intros [= <-]. destruct (IH k eq_refl) as (pre & x & post & -> & Hx & Hg & Hpre & Hlook).
      exists (y :: pre), x, post. repeat split; try done.
      constructor; [by intros _|done].
  - intros Hi. destruct (IH i Hi) as (pre & x & post & -> & Hx & Hg & Hpre & Hlook).
    exists (y :: pre), x, post. repeat split; try done.
    constructor; [congruence|done].
Qed.

(** Where an element of a filtered list sits in the list itself. *)
Lemma filter_lookup_position {A : Type} (p : A -> bool) (l : list A) (i : nat) (x : A) :
  List.filter p l !! i = Some x ->
  exists j, l !! j = Some x
            /\ i <= j
            /\ length (List.filter p (take j l)) = i.
Proof.
  revert i. induction l as [|y l IH]; intros i; simpl; [done|].
  destruct (p y) eqn:Hp.
  - destruct i as [|i]; simpl.
    + intros [= <-]. exists 0. by repeat split.
    + intros Hi. destruct (IH i Hi) as (j & Hj & Hle & Hcount).
      exists (S j). simpl. rewrite Hp. simpl. repeat split; [done|lia|by rewrite Hcount].
  - intros Hi. destruct (IH i Hi) as (j & Hj & Hle & Hcount).
    exists (S j). simpl. rewrite Hp. repeat split; [done|lia|done].
Qed.

(** ** Further properties of the mixins *)

Section Selection.

Variable mf : option ModelClass -> ResourceClass.

Implicit Types (self : View) (form : Form) (request : Request) (w : World).

Lemma form_valid_KeyError self form w :
  cleaned_data form !! "file_format" = None ->
  form_valid mf self form w = (w, Raise KeyError).
Proof.
  intros Hnone. unfold form_valid, bind, lift, Py.dict_getitem. by rewrite Hnone.
Qed.

Lemma form_valid_ValueError self form w choice e :
  cleaned_data form !! "file_format" = Some choice ->
  Py.int choice = Raise e ->
  form_valid mf self form w = (w, Raise ValueError).
Proof.
  intros Hchoice Hint. rewrite <- (int_raises _ _ Hint).
  unfold form_valid, bind, lift, Py.dict_getitem. by rewrite Hchoice, Hint.
Qed.

Lemma form_valid_in_bounds self form w choice z :
  cleaned_data form !! "file_format" = Some choice ->
  Py.int choice = Ok z ->
  (- Z.of_nat (length (get_export_formats self)) <= z
   < Z.of_nat (length (get_export_formats self)))%Z ->
  exists cls,
    get_export_formats self
      !! Z.to_nat (z mod Z.of_nat (length (get_export_formats self)))%Z = Some cls
    /\ form_valid mf self form w = form_valid_outcome mf self cls w.
Proof.
  intros Hchoice Hint Hz.
  destruct (getitem_in_bounds _ _ Hz) as (cls & Hcls & Hget).
  exists cls. split; [done|]. by eapply form_valid_selected.
Qed.

Lemma form_valid_IndexError self form w choice z :
  cleaned_data form !! "file_format" = Some choice ->
  Py.int choice = Ok z ->
  ~ (- Z.of_nat (length (get_export_formats self)) <= z
     < Z.of_nat (length (get_export_formats self)))%Z ->
  form_valid mf self form w = (w, Raise IndexError).
Proof.
  intros Hchoice Hint Hz.
  unfold form_valid, bind, lift, Py.dict_getitem.
  by rewrite Hchoice, Hint, (getitem_out_of_bounds _ _ Hz).
Qed.

(** The two ways [export] goes, by the requested title. *)
Lemma export_by_title self request w :
  ((Py.dict_get (GET request) "format" "csv" ∉ get_allowed_export_formats self)
   /\ export mf self request w
      = (w, Ok (JsonResponse {[ "message" := "format is not supported" ]} 400)))
  \/ (exists i cls,
        Py.index (get_allowed_export_formats self)
          (Py.dict_get (GET request) "format" "csv") = Ok i
        /\ Py.dict_get (GET request) "format" "csv" ∈ get_allowed_export_formats self
        /\ get_export_formats self !! i = Some cls
        /\ export mf self request w = export_outcome mf self cls w).
Proof.
  destruct (Py.index (get_allowed_export_formats self)
              (Py.dict_get (GET request) "format" "csv")) as [i|e] eqn:Hi.
  - right. destruct (index_allowed_selects _ _ _ Hi) as (cls & Hcls & Hget & _).
    exists i, cls. split; [done|]. split.
    + apply index_Ok in Hi as [Hi _]. by eapply list_elem_of_lookup_2.
    + split; [done|]. by eapply export_selected.
  - left. split; [by destruct (index_Raise _ _ _ Hi)|]. by eapply export_rejected.
Qed.

Lemma filter_none {A : Type} (p : A -> bool) (l : list A) :
  Forall (fun x => p x = false) l -> List.filter p l = [].
Proof.
  induction 1 as [|x l Hx _ IH]; simpl; [done|]. by rewrite Hx.
Qed.

End Selection.

Section Extras.

Variable mf : option ModelClass -> ResourceClass.

Implicit Types (self : View) (form : Form) (request : Request) (w : World).

(** X1: The form is built from the framework's keyword arguments with
    [formats] set to [get_export_formats()], whatever stood under that key,
    and every other key kept; so the class the form offers at position [i] is
    the one [form_valid] continues with when the form sends back [str(i)]. *)
Theorem get_form_kwargs_offers_resolved_formats self (super_kwargs : FormKwargs) :
  get_form_kwargs self super_kwargs !! "formats"
  = Some (FormatsKwarg (get_export_formats self))
  /\ (forall k, k <> "formats" ->
        get_form_kwargs self super_kwargs !! k = super_kwargs !! k)
  /\ dom (get_form_kwargs self super_kwargs)
     = ({[ "formats" ]} ∪ dom super_kwargs : gset string)
  /\ (forall offered i cls form w,
        get_form_kwargs self super_kwargs !! "formats" = Some (FormatsKwarg offered) ->
        offered !! i = Some cls ->
        cleaned_data form !! "file_format" = Some (Py.str i) ->
        get_export_formats self !! i = Some cls
        /\ form_valid mf self form w = form_valid_outcome mf self cls w).
Proof.
  unfold get_form_kwargs. cbv zeta. split; [apply lookup_insert_eq|].
  split; [|split].
  - intros k Hk. by apply lookup_insert_ne.
  - apply dom_insert_L.
  - intros offered i cls form w Hoffered Hcls Hchoice.
    assert (Some (FormatsKwarg (get_export_formats self)) = Some (FormatsKwarg offered))
      as Hsame by (rewrite <- Hoffered; symmetry; apply lookup_insert_eq).
    injection Hsame as <-.
    split; [done|].
    eapply form_valid_selected; [exact Hchoice|apply int_str|by apply getitem_lookup].
Qed.

(** X2: A negative choice is not rejected: ["-k"], for [k] from 1 to the number
    of export formats, selects the format [k] places from the end. *)
Theorem form_valid_negative_index self form w (k : nat) cls :
  cleaned_data form !! "file_format" = Some (String "-" (Py.str k)) ->
  1 <= k <= length (get_export_formats self) ->
  get_export_formats self !! (length (get_export_formats self) - k) = Some cls ->
  form_valid mf self form w = form_valid_outcome mf self cls w.
Proof.
  intros Hchoice Hk Hcls.
  destruct (form_valid_in_bounds mf self form w _ _ Hchoice (int_minus_str k))
    as (cls' & Hcls' & ->); [lia|].
  replace (Z.to_nat ((- Z.of_nat k) mod Z.of_nat (length (get_export_formats self)))%Z)
    with (length (get_export_formats self) - k) in Hcls'.
  - by simplify_eq.
  - set (n := length (get_export_formats self)) in *.
    destruct (decide (k = n)) as [->|Hne].
    + replace (- Z.of_nat n)%Z with (0 + (-1) * Z.of_nat n)%Z by lia.
      rewrite Z.mod_add by lia. rewrite Z.mod_0_l by lia. lia.
    + rewrite <- (Z.mod_add _ 1) by lia. rewrite Z.mod_small by lia. lia.
Qed.

(** X3: How [form_valid] selects. A missing [file_format] raises [KeyError].
    A choice of ASCII characters, at most 4300 of them, raises [ValueError]
    when it is no integer literal (white space around an optional sign and
    digits, single underscores between digits allowed), and [IndexError] when
    it is an integer outside [-n, n), for [n] export formats; each of the
    three before any call is made. An integer within the bounds selects the
    class at its residue modulo [n]. *)
Theorem form_valid_selection self form w :
  match cleaned_data form !! "file_format" with
  | None => form_valid mf self form w = (w, Raise KeyError)
  | Some choice =>
      is_ascii choice = true ->
      String.length choice <= 4300 ->
      match Py.int choice with
      | Raise _ => form_valid mf self form w = (w, Raise ValueError)
      | Ok z =>
          if decide (- Z.of_nat (length (get_export_formats self)) <= z
                     < Z.of_nat (length (get_export_formats self)))%Z
          then exists cls,
                 get_export_formats self
                   !! Z.to_nat (z mod Z.of_nat (length (get_export_formats self)))%Z
                 = Some cls
                 /\ form_valid mf self form w = form_valid_outcome mf self cls w
          else form_valid mf self form w = (w, Raise IndexError)
      end
  end.
Proof.
  destruct (cleaned_data form !! "file_format") as [choice|] eqn:Hchoice;
    [|by apply form_valid_KeyError].
  intros _ _.
  destruct (Py.int choice) as [z|e] eqn:Hint; [|by eapply form_valid_ValueError].
  destruct (decide _) as [Hz|Hz].
  - by eapply form_valid_in_bounds.
  - by eapply form_valid_IndexError.
Qed.

(** X4: On a view whose [resource_class] declares no record type (the
    attribute left at [None] among the cases), [form_valid] fails late: once
    the format is selected it fetches the queryset, has the resource export
    it and the format encode it (both answering, as the collaborators are
    modelled), and only then raises [AttributeError] from the filename
    derivation; the encoded data is dropped and [post_export] is not sent. *)
Theorem form_valid_fails_after_export self form w choice z cls :
  cleaned_data form !! "file_format" = Some choice ->
  Py.int choice = Ok z ->
  Py.getitem (get_export_formats self) z = Ok cls ->
  declared_model self = None ->
  form_valid mf self form w
  = (extend w
       [ form_query_event self;
         ResourceInit (get_export_resource_class mf self) ∅;
         ResourceExport (form_queryset self);
         FormatExportData (construct cls)
           (export_queryset (init (get_export_resource_class mf self) ∅)
              (form_queryset self)) ],
     Raise AttributeError).
Proof.
  intros Hchoice Hint Hcls Hdecl.
  rewrite (form_valid_selected mf self form w _ _ cls Hchoice Hint Hcls).
  outcome. by rewrite Hdecl.
Qed.

(** X5: A response of [export] has status 400 exactly when the title is not
    allowed, and then no call was made; otherwise it has status 200, the
    title is allowed, the resource class declares its record type, and the
    response carries the two headers [Content-Type] and
    [Content-Disposition] and no other. *)
Theorem export_response_status self request w resp :
  snd (export mf self request w) = Ok resp ->
  (status_code resp = 400%Z
   /\ (Py.dict_get (GET request) "format" "csv" ∉ get_allowed_export_formats self)
   /\ fst (export mf self request w) = w)
  \/ (status_code resp = 200%Z
      /\ Py.dict_get (GET request) "format" "csv" ∈ get_allowed_export_formats self
      /\ is_Some (declared_model self)
      /\ dom (headers resp) = ({[ "Content-Type"; "Content-Disposition" ]} : gset string)).
Proof.
  destruct (export_by_title mf self request w)
    as [[Hnot ->]|(i & cls & _ & Hin & _ & ->)].
  - simpl. intros [= <-]. by left.
  - intros Hresp. apply export_outcome_Ok in Hresp as (T & HT & ->).
    right. split; [done|]. split; [done|]. split; [by rewrite HT|].
    unfold download. simpl. rewrite dom_insert_L, dom_singleton_L. set_solver.
Qed.

(** X6: On a view whose [resource_class] declares no record type, [export]
    with an allowed title fails late as well: it fetches and filters the
    queryset, has the resource export it and the resolved format encode it
    (both answering, as the collaborators are modelled), and only then raises
    [AttributeError] from the filename derivation. *)
Theorem export_fails_after_export self request w :
  Py.dict_get (GET request) "format" "csv" ∈ get_allowed_export_formats self ->
  declared_model self = None ->
  exists i cls,
    Py.index (get_allowed_export_formats self) (Py.dict_get (GET request) "format" "csv")
    = Ok i
    /\ get_export_formats self !! i = Some cls
    /\ export mf self request w
       = (extend w
            [ GetQueryset;
              FilterQueryset (get_queryset self);
              ResourceInit (get_export_resource_class mf self) ∅;
              ResourceExport (filter_queryset self (get_queryset self));
              FormatExportData (construct cls)
                (export_queryset (init (get_export_resource_class mf self) ∅)
                   (filter_queryset self (get_queryset self))) ],
          Raise AttributeError).
Proof.
  intros Hin Hdecl.
  destruct (export_by_title mf self request w)
    as [[Hnot _]|(i & cls & Hi & _ & Hcls & ->)]; [done|].
  exists i, cls. split; [done|]. split; [done|].
  outcome. by rewrite Hdecl.
Qed.

(** X7: When several formats bear the requested title, [export] continues with
    the first export-capable one in the order of [formats]. *)
Theorem export_resolves_first_title self request w :
  Py.dict_get (GET request) "format" "csv" ∈ get_allowed_export_formats self ->
  exists pre cls post,
    formats self = (pre ++ cls :: post)%list
    /\ can_export (construct cls) = true
    /\ get_title (construct cls) = Py.dict_get (GET request) "format" "csv"
    /\ Forall (fun f => can_export (construct f) = true ->
                        get_title (construct f) <> Py.dict_get (GET request) "format" "csv")
         pre
    /\ export mf self request w = export_outcome mf self cls w.
Proof.
  intros Hin. destruct (index_elem_of _ _ Hin) as [i Hi].
  pose proof Hi as Hfirst.
  unfold get_allowed_export_formats in Hfirst. rewrite comprehension_spec in Hfirst.
  apply index_map_filter_first in Hfirst as (pre & cls & post & Hsplit & Hp & Hg & Hpre & Hcls).
  exists pre, cls, post. repeat split; try done.
  eapply export_selected; [exact Hi|].
  apply getitem_lookup. by rewrite get_export_formats_filter.
Qed.

(** X8: The two entry points agree: when the form's choice is the position the
    title resolves to and the form flow's queryset is the framework-filtered
    one, [form_valid] and [export] return the same response or raise the same
    exception. *)
Theorem export_matches_form_valid self form request w (i : nat) :
  Py.index (get_allowed_export_formats self) (Py.dict_get (GET request) "format" "csv")
  = Ok i ->
  cleaned_data form !! "file_format" = Some (Py.str i) ->
  form_queryset self = filter_queryset self (get_queryset self) ->
  snd (form_valid mf self form w) = snd (export mf self request w).
Proof.
  intros Hi Hchoice Hq.
  destruct (index_allowed_selects _ _ _ Hi) as (cls & _ & Hget & _).
  rewrite (form_valid_selected mf self form w _ _ cls Hchoice (int_str i) Hget).
  rewrite (export_selected mf self request w _ _ Hi Hget).
  outcome. rewrite Hq. by destruct (declared_model self).
Qed.

(** X9: On a view none of whose formats can export (an empty [formats] among
    them), [export] rejects every request with status 400 and [form_valid]
    raises on every form while selecting, both without making a call. *)
Theorem no_export_formats self :
  Forall (fun f => can_export (construct f) = false) (formats self) ->
  (forall request w,
      export mf self request w
      = (w, Ok (JsonResponse {[ "message" := "format is not supported" ]} 400)))
  /\ (forall form w,
        exists e, form_valid mf self form w = (w, Raise e)
                  /\ (e = KeyError \/ e = ValueError \/ e = IndexError)).
Proof.
  intros Hnone.
  assert (get_export_formats self = []) as Hempty.
  { rewrite get_export_formats_filter. by apply filter_none. }
  split.
  - intros request w. eapply export_rejected.
    rewrite get_allowed_export_formats_titles, Hempty. reflexivity.
  - intros form w.
    destruct (cleaned_data form !! "file_format") as [choice|] eqn:Hchoice.
    + destruct (Py.int choice) as [z|e] eqn:Hint.
      * exists IndexError. split; [|auto].
        eapply form_valid_IndexError; [done|done|]. rewrite Hempty. simpl. lia.
      * exists ValueError. split; [|auto]. by eapply form_valid_ValueError.
    + exists KeyError. split; [|auto]. by apply form_valid_KeyError.
Qed.

(** X10: Positions in the offered list are not positions in [formats]: the
    export format at position [i] sits in [formats] at a position [j] with
    [i <= j], preceded there by exactly [i] export-capable formats. *)
Theorem export_format_position self (i : nat) cls :
  get_export_formats self !! i = Some cls ->
  exists j,
    formats self !! j = Some cls
    /\ i <= j
    /\ length (List.filter exportable (take j (formats self))) = i.
Proof.
  rewrite get_export_formats_filter. apply filter_lookup_position.
Qed.

End Extras.

(** ** The further properties on the concrete collaborators *)

Lemma get_form_kwargs_offers_resolved_formats_witness :
  get_form_kwargs Demo.book_view Demo.framework_kwargs !! "formats"
  = Some (FormatsKwarg [Demo.CSV; Demo.XLSX])
  /\ get_form_kwargs Demo.book_view Demo.framework_kwargs !! "prefix"
     = Some (FrameworkKwarg "export")
  /\ form_valid Demo.factory Demo.book_view (Demo.submitted "1") Demo.today
     = form_valid_outcome Demo.factory Demo.book_view Demo.XLSX Demo.today.
Proof.
  destruct (get_form_kwargs_offers_resolved_formats Demo.factory Demo.book_view
              Demo.framework_kwargs) as (Hformats & Hkeep & _ & Hresolve).
  split; [exact Hformats|]. split.
  - rewrite (Hkeep "prefix") by discriminate. reflexivity.
  - exact (proj2 (Hresolve _ 1 Demo.XLSX (Demo.submitted "1") Demo.today
                    Hformats eq_refl eq_refl)).
Defined.

(** White space around the choice is accepted, as [int()] accepts it. *)
Lemma form_valid_selection_witness :
  cleaned_data (Demo.submitted " 1 ") !! "file_format" = Some " 1 "
  /\ Py.int " 1 " = Ok 1%Z
  /\ exists cls,
       get_export_formats Demo.book_view !! 1 = Some cls
       /\ form_valid Demo.factory Demo.book_view (Demo.submitted " 1 ") Demo.today
          = form_valid_outcome Demo.factory Demo.book_view cls Demo.today.
Proof.
  assert (String.length " 1 " <= 4300) as Hlen by (simpl; lia).
  split; [reflexivity|]. split; [reflexivity|].
  exact (form_valid_selection Demo.factory Demo.book_view (Demo.submitted " 1 ")
           Demo.today eq_refl Hlen).
Defined.

Lemma form_valid_negative_index_witness :
  cleaned_data (Demo.submitted "-1") !! "file_format" = Some (String "-" (Py.str 1))
  /\ 1 <= 1 <= length (get_export_formats Demo.book_view)
  /\ form_valid Demo.factory Demo.book_view (Demo.submitted "-1") Demo.today
     = form_valid_outcome Demo.factory Demo.book_view Demo.XLSX Demo.today.
Proof.
  assert (1 <= 1 <= length (get_export_formats Demo.book_view)) as Hk by (simpl; lia).
  split; [reflexivity|]. split; [exact Hk|].
  exact (form_valid_negative_index Demo.factory Demo.book_view (Demo.submitted "-1")
           Demo.today 1 Demo.XLSX eq_refl Hk eq_refl).
Defined.

Lemma form_valid_fails_after_export_witness :
  declared_model Demo.default_view = None
  /\ form_valid Demo.factory Demo.default_view (Demo.submitted "0") Demo.today
     = (extend Demo.today
          [ GetQueryset;
            ResourceInit (Demo.factory (Some Demo.Book)) ∅;
            ResourceExport Demo.books;
            FormatExportData Demo.csv_format Demo.books ],
        Raise AttributeError).
Proof.
  split; [reflexivity|].
  exact (form_valid_fails_after_export Demo.factory Demo.default_view
           (Demo.submitted "0") Demo.today "0" 0%Z Demo.CSV
           eq_refl eq_refl eq_refl eq_refl).
Defined.

Lemma export_response_status_witness :
  exists resp,
    snd (export Demo.factory Demo.book_view (Demo.asking "xlsx") Demo.today) = Ok resp
    /\ status_code resp = 200%Z
    /\ dom (headers resp) = ({[ "Content-Type"; "Content-Disposition" ]} : gset string).
Proof.
  eexists. split; [reflexivity|]. split; [reflexivity|].
  destruct (export_response_status Demo.factory Demo.book_view (Demo.asking "xlsx")
              Demo.today _ eq_refl) as [(Hstatus & _)|(_ & _ & _ & Hdom)].
  - discriminate Hstatus.
  - exact Hdom.
Defined.

Lemma export_fails_after_export_witness :
  (Py.dict_get (GET (Demo.asking "csv")) "format" "csv"
     ∈ get_allowed_export_formats Demo.modelless_view)
  /\ declared_model Demo.modelless_view = None
  /\ snd (export Demo.factory Demo.modelless_view (Demo.asking "csv") Demo.today)
     = Raise AttributeError
  /\ events (fst (export Demo.factory Demo.modelless_view (Demo.asking "csv") Demo.today))
     = [ GetQueryset;
         FilterQueryset Demo.books;
         ResourceInit Demo.PlainResource ∅;
         ResourceExport (take 2 Demo.books);
         FormatExportData Demo.csv_format (take 2 Demo.books) ].
Proof.
  assert (Py.dict_get (GET (Demo.asking "csv")) "format" "csv"
            ∈ get_allowed_export_formats Demo.modelless_view) as Hin by compute_done.
  split; [exact Hin|]. split; [reflexivity|].
  destruct (export_fails_after_export Demo.factory Demo.modelless_view
              (Demo.asking "csv") Demo.today Hin eq_refl)
    as (i & cls & Hi & Hcls & Hrun).
  injection Hi as <-. injection Hcls as <-.
  rewrite Hrun. split; reflexivity.
Defined.

Lemma export_resolves_first_title_witness :
  (Py.dict_get (GET Demo.get_request) "format" "csv"
     ∈ get_allowed_export_formats Demo.two_csv_view)
  /\ exists pre cls post,
       formats Demo.two_csv_view = (pre ++ cls :: post)%list
       /\ can_export (construct cls) = true
       /\ get_title (construct cls) = "csv"
       /\ Forall (fun f => can_export (construct f) = true ->
                           get_title (construct f) <> "csv") pre
       /\ export Demo.factory Demo.two_csv_view Demo.get_request Demo.today
          = export_outcome Demo.factory Demo.two_csv_view cls Demo.today.
Proof.
  assert (Py.dict_get (GET Demo.get_request) "format" "csv"
            ∈ get_allowed_export_formats Demo.two_csv_view) as Hin by compute_done.
  split; [exact Hin|].
  exact (export_resolves_first_title Demo.factory Demo.two_csv_view Demo.get_request
           Demo.today Hin).
Defined.

(** Of the two formats titled "csv" the first in [formats] answers. *)
Example export_two_csv_demo :
  snd (export Demo.factory Demo.two_csv_view Demo.get_request Demo.today)
  = Ok (download Demo.csv_format
          ("1,Emma" ++ Demo.newline ++ "2,Ulysses" ++ Demo.newline ++ "3,Dracula")
          "Book-2024-05-17.csv").
Proof. vm_compute. reflexivity. Qed.

Lemma export_matches_form_valid_witness :
  Py.index (get_allowed_export_formats Demo.unfiltered_view)
    (Py.dict_get (GET (Demo.asking "xlsx")) "format" "csv") = Ok 1
  /\ cleaned_data (Demo.submitted "1") !! "file_format" = Some (Py.str 1)
  /\ form_queryset Demo.unfiltered_view
     = filter_queryset Demo.unfiltered_view (get_queryset Demo.unfiltered_view)
  /\ snd (form_valid Demo.factory Demo.unfiltered_view (Demo.submitted "1") Demo.today)
     = snd (export Demo.factory Demo.unfiltered_view (Demo.asking "xlsx") Demo.today).
Proof.
  split; [reflexivity|]. split; [reflexivity|]. split; [reflexivity|].
  exact (export_matches_form_valid Demo.factory Demo.unfiltered_view (Demo.submitted "1")
           (Demo.asking "xlsx") Demo.today 1 eq_refl eq_refl eq_refl).
Defined.

Lemma no_export_formats_witness :
  Forall (fun f => can_export (construct f) = false) (formats Demo.import_only_view)
  /\ export Demo.factory Demo.import_only_view (Demo.asking "legacy") Demo.today
     = (Demo.today, Ok (JsonResponse {[ "message" := "format is not supported" ]} 400))
  /\ exists e,
       form_valid Demo.factory Demo.import_only_view (Demo.submitted "0") Demo.today
       = (Demo.today, Raise e).
Proof.
  assert (Forall (fun f => can_export (construct f) = false)
            (formats Demo.import_only_view)) as Hnone.
  { repeat constructor. }
  split; [exact Hnone|].
  destruct (no_export_formats Demo.factory Demo.import_only_view Hnone) as [Hexport Hform].
  split; [apply Hexport|].
  destruct (Hform (Demo.submitted "0") Demo.today) as (e & He & _). by exists e.
Defined.

Lemma export_format_position_witness :
  get_export_formats Demo.book_view !! 1 = Some Demo.XLSX
  /\ exists j,
       formats Demo.book_view !! j = Some Demo.XLSX
       /\ 1 <= j
       /\ length (List.filter exportable (take j (formats Demo.book_view))) = 1.
Proof.
  split; [reflexivity|].
  exact (export_format_position Demo.book_view 1 Demo.XLSX eq_refl).
Defined.
